(** * OurBlock status dashboard: a shallow embedding of
      [deploy/status-dashboard/server.py] and the properties of its
      polling loop, probes and HTTP handlers. *)

From Stdlib Require Import ZArith QArith Qround String DecimalString Lia.
From stdpp Require Import base option list gmap strings.

Set Warnings "-register-all".

Open Scope string_scope.
Open Scope list_scope.
Open Scope Z_scope.

(** ** Python values

    The values that live in [stats_cache] and that [response.json()] can
    return: [None], booleans, integers, floats, strings, lists and
    string-keyed dictionaries.  A Python float is kept as the exact
    rational it denotes. *)

Inductive pyval :=
| PNone
| PBool (b : bool)
| PInt (z : Z)
| PFloat (q : Q)
| PStr (s : string)
| PList (l : list pyval)
| PDict (d : gmap string pyval).

(** Exceptions the modelled code can meet.  All of them derive from
    [Exception]; [NotFound] is [docker.errors.NotFound]. *)
Inductive exn :=
| RequestException
| JSONDecodeError
| AttributeError
| KeyError
| TypeError
| OSError
| NotFound
| DockerException.

Inductive result (A : Type) :=
| Ok (a : A)
| Raise (e : exn).
Arguments Ok {A} a.
Arguments Raise {A} e.

(** [bool(v)]: the truth value Python gives [v] in [if v:]. *)
Definition truthy (v : pyval) : bool :=
  match v with
  | PNone => false
  | PBool b => b
  | PInt z => negb (z =? 0)
  | PFloat q => negb (Qeq_bool q 0)
  | PStr s => negb (String.eqb s "")
  | PList l => match l with [] => false | _ :: _ => true end
  | PDict d => negb (bool_decide (d = ∅))
  end.

(** [v.get(key, dflt)]: only dictionaries have a [get] method. *)
Definition py_get (v : pyval) (key : string) (dflt : pyval) : result pyval :=
  match v with
  | PDict d => Ok (default dflt (d !! key))
  | _ => Raise AttributeError
  end.

(** The number a value stands for in arithmetic, if it is one. *)
Definition as_number (v : pyval) : result Q :=
  match v with
  | PBool b => Ok (inject_Z (if b then 1 else 0))
  | PInt z => Ok (inject_Z z)
  | PFloat q => Ok q
  | _ => Raise TypeError
  end.

(** [t - v] for a float [t]. *)
Definition py_float_sub (t : Q) (v : pyval) : result pyval :=
  match as_number v with
  | Ok q => Ok (PFloat (t - q)%Q)
  | Raise e => Raise e
  end.

(** [a / b] on integers (true division). *)
Definition py_truediv (a b : Z) : Q := (inject_Z a / inject_Z b)%Q.

(** Nearest integer, ties to even. *)
Definition round_half_even (q : Q) : Z :=
  let f := Qfloor q in
  match ((q - inject_Z f) ?= (1 # 2))%Q with
  | Lt => f
  | Gt => f + 1
  | Eq => if Z.even f then f else f + 1
  end.

(** [round(v, 2)]. *)
Definition py_round2 (v : pyval) : result pyval :=
  match v with
  | PBool b => Ok (PInt (if b then 1 else 0))
  | PInt z => Ok (PInt z)
  | PFloat q => Ok (PFloat (inject_Z (round_half_even (q * 100)) / 100)%Q)
  | _ => Raise TypeError
  end.

(** [str(z)] for an integer, as an f-string renders it. *)
Definition str_of_int (z : Z) : string := NilZero.string_of_int (Z.to_int z).

(** ** [format_uptime]  (server.py, lines 41-52) *)

(** [x // m] and [x % m] for a positive modulus. *)
Definition py_floordiv (x m : Q) : Z := Qfloor (x / m).
Definition py_mod (x m : Q) : Q := (x - m * inject_Z (py_floordiv x m))%Q.

Definition format_uptime (seconds : Q) : string :=
  let days := py_floordiv seconds 86400 in
  let hours := py_floordiv (py_mod seconds 86400) 3600 in
  let minutes := py_floordiv (py_mod seconds 3600) 60 in
  if 0 <? days then
    str_of_int days +:+ "d " +:+ str_of_int hours +:+ "h " +:+ str_of_int minutes +:+ "m"
  else if 0 <? hours then
    str_of_int hours +:+ "h " +:+ str_of_int minutes +:+ "m"
  else
    str_of_int minutes +:+ "m".


(** ** The data directory as [os.walk] and [os.path] see it

    [os.walk(top)] is called with its defaults (top-down, [onerror=None],
    [followlinks=False]): a directory whose listing fails, the top
    directory included, is skipped without an error and the walk goes on.
    [subdirs] and [files] are the directory and non-directory names of one
    listing, in listing order. *)

Inductive dir :=
| Unreadable
| Listing (subdirs : list (string * dir)) (files : list string).

(** What [os.path.exists] and [os.path.getsize] answer for a path at the
    time the scan reaches it.  [Vanished]: [exists] is false (file removed
    after it was listed, or a broken link).  [StatFails]: [exists] is true
    and [getsize] raises [OSError]. *)
Inductive lookup :=
| Present (size : Z)
| Vanished
| StatFails.

Record filesystem := {
  tree_at : string -> dir;
  stat : string -> lookup
}.

Definition os_path_join (dirpath name : string) : string :=
  dirpath +:+ "/" +:+ name.

Definition os_path_exists (fs : filesystem) (fp : string) : bool :=
  match stat fs fp with
  | Vanished => false
  | _ => true
  end.

Definition os_path_getsize (fs : filesystem) (fp : string) : result Z :=
  match stat fs fp with
  | Present n => Ok n
  | _ => Raise OSError
  end.

(** The triples [(dirpath, dirnames, filenames)] that [os.walk] yields. *)
Fixpoint os_walk (top : string) (d : dir) : list (string * list string * list string) :=
  match d with
  | Unreadable => []
  | Listing subdirs files =>
      (top, map fst subdirs, files) ::
      (fix walk_subdirs (l : list (string * dir)) :=
         match l with
         | [] => []
         | (name, sub) :: rest =>
             os_walk (os_path_join top name) sub ++ walk_subdirs rest
         end) subdirs
  end.

(** ** [get_storage_used]  (server.py, lines 54-65)

    The two loops thread the local [total_size]; the second component is
    the exception that left the loop, if any.  [total_size] keeps its value
    when the [try] block is left by an exception. *)

Fixpoint scan_filenames (fs : filesystem) (dirpath : string)
    (filenames : list string) (total_size : Z) : Z * option exn :=
  match filenames with
  | [] => (total_size, None)
  | f :: rest =>
      let fp := os_path_join dirpath f in
      if os_path_exists fs fp then
        match os_path_getsize fs fp with
        | Ok n => scan_filenames fs dirpath rest (total_size + n)
        | Raise e => (total_size, Some e)
        end
      else scan_filenames fs dirpath rest total_size
  end.

Fixpoint scan_walk (fs : filesystem)
    (walk : list (string * list string * list string)) (total_size : Z)
    : Z * option exn :=
  match walk with
  | [] => (total_size, None)
  | (dirpath, dirnames, filenames) :: rest =>
      match scan_filenames fs dirpath filenames total_size with
      | (t, None) => scan_walk fs rest t
      | (t, Some e) => (t, Some e)
      end
  end.

(** The paths [fp] the two loops look up, in the order they reach them. *)
Definition walk_paths (walk : list (string * list string * list string)) : list string :=
  flat_map (fun '(dirpath, _, filenames) => map (os_path_join dirpath) filenames) walk.

(** The inner loop on full paths. *)
Fixpoint scan_paths (fs : filesystem) (paths : list string) (total_size : Z)
    : Z * option exn :=
  match paths with
  | [] => (total_size, None)
  | fp :: rest =>
      if os_path_exists fs fp then
        match os_path_getsize fs fp with
        | Ok n => scan_paths fs rest (total_size + n)
        | Raise e => (total_size, Some e)
        end
      else scan_paths fs rest total_size
  end.

(** The tree without the directories that cannot be listed (the top
    directory is kept as it is). *)
Fixpoint prune (d : dir) : dir :=
  match d with
  | Unreadable => Unreadable
  | Listing subdirs files =>
      Listing
        ((fix prune_subdirs (l : list (string * dir)) :=
            match l with
            | [] => []
            | (name, Unreadable) :: rest => prune_subdirs rest
            | (name, sub) :: rest => (name, prune sub) :: prune_subdirs rest
            end) subdirs)
        files
  end.

(** The bytes a looked-up path adds to the total. *)
Definition present_size (l : lookup) : Z :=
  match l with
  | Present n => n
  | _ => 0
  end.

Definition sum_sizes (fs : filesystem) (paths : list string) : Z :=
  foldr (fun fp acc => present_size (stat fs fp) + acc) 0 paths.

Definition sum_list_Z (l : list Z) : Z := foldr Z.add 0 l.

(** ** The world outside the process

    One [world] holds what the outside answers during one polling cycle:
    the HTTP peers, the clock, the data directory and the container
    runtime.  A [Raise] is the exception the library call raises. *)

Inductive request :=
| GET (url : string)
| POST (url : string).

(** [json = None]: [response.json()] raises (the body is not JSON). *)
Record response := {
  status_code : Z;
  json : option pyval
}.

Record world := {
  http : request -> result response;
  time_time : Q;
  datetime_now_isoformat : string;
  fs : filesystem;
  docker_client : result (string -> result string)
}.

(** Calls that leave the process, in the order they are made. *)
Inductive call :=
| CRequest (r : request)
| CFromEnv
| CContainersGet (container_name : string).

(** The state a cycle runs on: the global [stats_cache], and two ghost
    fields: the outside calls made so far and every content the cache has
    had after an assignment (what a handler running in another thread may
    find in it). *)
Record pstate := {
  stats_cache : gmap string pyval;
  calls : list call;
  seen : list (gmap string pyval)
}.

(** ** A state and exception monad for the poller *)

Definition M (A : Type) : Type := world -> pstate -> pstate * result A.

#[export] Instance M_ret : MRet M := fun A a _ s => (s, Ok a).

#[export] Instance M_bind : MBind M := fun A B f m w s =>
  match m w s with
  | (s', Ok a) => f a w s'
  | (s', Raise e) => (s', Raise e)
  end.

#[export] Instance result_ret : MRet result := fun A a => Ok a.

#[export] Instance result_bind : MBind result := fun A B f r =>
  match r with
  | Ok a => f a
  | Raise e => Raise e
  end.

Definition lift {A} (r : result A) : M A := fun _ s => (s, r).

Definition ask {A} (f : world -> A) : M A := fun w s => (s, Ok (f w)).

(** [try: m  except Exception as e: h e] *)
Definition try_except {A} (m : M A) (h : exn -> M A) : M A := fun w s =>
  match m w s with
  | (s', Ok a) => (s', Ok a)
  | (s', Raise e) => h e w s'
  end.

Definition log_call (c : call) : M unit := fun _ s =>
  ({| stats_cache := stats_cache s; calls := calls s ++ [c]; seen := seen s |}, Ok tt).

(** [stats_cache[key]] *)
Definition cache_get (c : gmap string pyval) (key : string) : result pyval :=
  match c !! key with
  | Some v => Ok v
  | None => Raise KeyError
  end.

Definition load (key : string) : M pyval := fun _ s =>
  (s, cache_get (stats_cache s) key).

(** [stats_cache[key] = v]: one assignment into the shared dictionary. *)
Definition store (key : string) (v : pyval) : M unit := fun _ s =>
  let c := <[key := v]> (stats_cache s) in
  ({| stats_cache := c; calls := calls s; seen := seen s ++ [c] |}, Ok tt).

Definition requests_get (url : string) : M response :=
  log_call (CRequest (GET url));; r ← ask (fun w => http w (GET url)); lift r.

Definition requests_post (url : string) : M response :=
  log_call (CRequest (POST url));; r ← ask (fun w => http w (POST url)); lift r.

Definition response_json (r : response) : M pyval :=
  lift (match json r with Some v => Ok v | None => Raise JSONDecodeError end).

Definition docker_from_env : M (string -> result string) :=
  log_call CFromEnv;; c ← ask docker_client; lift c.

(** [client.containers.get(container_name).status] *)
Definition containers_get_status (client : string -> result string)
    (container_name : string) : M string :=
  log_call (CContainersGet container_name);; lift (client container_name).

(** Configuration read once at import (server.py, lines 18-27):
    three environment variables and whether [import docker] succeeded. *)
Record config := {
  NEIGHBORHOOD_ID : string;
  CONDUCTOR_URL : string;
  DATA_DIR : string;
  DOCKER_AVAILABLE : bool
}.

Section Dashboard.

Variable cfg : config.

(** The cache as the module creates it (lines 30-39); [t0] is the
    [time.time()] of that moment. *)
Definition initial_stats_cache (t0 : Q) : gmap string pyval :=
  <["online" := PBool false]>
  (<["uptime" := PInt 0]>
  (<["start_time" := PFloat t0]>
  (<["vouches_processed" := PInt 0]>
  (<["storage_used_mb" := PInt 0]>
  (<["peers_connected" := PInt 0]>
  (<["containers" := PDict ∅]>
  (<["last_update" := PNone]> ∅))))))).

Definition initial_state (t0 : Q) : pstate :=
  {| stats_cache := initial_stats_cache t0; calls := []; seen := [] |}.

(** The value of [total_size] when [return] is reached, and the exception
    the [except Exception: pass] clause swallowed, if any. *)
Definition scan_total (f : filesystem) : Z * option exn :=
  scan_walk f (os_walk (DATA_DIR cfg) (tree_at f (DATA_DIR cfg))) 0.

Definition get_storage_used (f : filesystem) : Q :=
  py_truediv (fst (scan_total f)) (1024 * 1024).

(** ** [get_container_status]  (lines 67-92) *)

Definition docker_unavailable : gmap string pyval :=
  <["conductor" := PStr "docker unavailable"]>
  (<["lair" := PStr "docker unavailable"]>
  (<["ui" := PStr "docker unavailable"]> ∅)).

Definition all_unknown : gmap string pyval :=
  <["conductor" := PStr "unknown"]>
  (<["lair" := PStr "unknown"]>
  (<["ui" := PStr "unknown"]> ∅)).

Definition containers : list (string * string) :=
  [("conductor", "ourblock-conductor");
   ("lair", "ourblock-lair");
   ("ui", "ourblock-ui")].

Fixpoint container_loop (client : string -> result string)
    (items : list (string * string)) (status : gmap string pyval)
    : M (gmap string pyval) :=
  match items with
  | [] => mret status
  | (name, container_name) :: rest =>
      st ← try_except (containers_get_status client container_name)
             (fun e => mret (match e with
                             | NotFound => "not found"
                             | _ => "unknown"
                             end));
      container_loop client rest (<[name := PStr st]> status)
  end.

Definition get_container_status : M (gmap string pyval) :=
  if negb (DOCKER_AVAILABLE cfg) then mret docker_unavailable
  else
    try_except
      (client ← docker_from_env;
       container_loop client containers ∅)
      (fun _ => mret all_unknown).

(** ** [get_conductor_stats]  (lines 94-107)

    Inside the [try], [Some v] is a [return v]; [None] falls through to the
    final [return None]. *)
Definition get_conductor_stats : M pyval :=
  r ← try_except
        (response ← requests_post (CONDUCTOR_URL cfg +:+ "/api/admin/v0/interfaces");
         if status_code response =? 200
         then v ← response_json response; mret (Some v)
         else mret None)
        (fun _ => mret None);
  mret (default PNone r).

(** ** [update_stats]  (lines 109-147) *)

(** Lines 116-125: the conductor health check. *)
Definition check_conductor_health : M unit :=
  try_except
    (response ← requests_get (CONDUCTOR_URL cfg +:+ "/health");
     store "online" (PBool (status_code response =? 200)))
    (fun _ =>
       try_except
         (response ← requests_get (CONDUCTOR_URL cfg);
          store "online"
            (PBool ((status_code response =? 200) || (status_code response =? 404))))
         (fun _ => store "online" (PBool false))).

(** Lines 115-142: the body of the outer [try]. *)
Definition cycle_body : M unit :=
  check_conductor_health;;
  now ← ask time_time;
  start_time ← load "start_time";
  uptime ← lift (py_float_sub now start_time);
  store "uptime" uptime;;
  mb ← ask (fun w => get_storage_used (fs w));
  store "storage_used_mb" (PFloat mb);;
  status ← get_container_status;
  store "containers" (PDict status);;
  conductor_stats ← get_conductor_stats;
  (if truthy conductor_stats
   then peers ← lift (py_get conductor_stats "peers" (PInt 0));
        store "peers_connected" peers
   else mret tt);;
  stamp ← ask datetime_now_isoformat;
  store "last_update" (PStr stamp).

(** One turn of [while True]: the body under the outer [except Exception],
    which prints the error and goes on to [time.sleep(10)]. *)
Definition update_stats_iteration : M unit :=
  try_except cycle_body (fun _ => mret tt).

(** The state after one turn in world [w]. *)
Definition run_cycle (w : world) (s : pstate) : pstate :=
  fst (update_stats_iteration w s).

(** The loop, run for as many turns as there are worlds. *)
Fixpoint update_stats (ws : list world) (s : pstate) : pstate :=
  match ws with
  | [] => s
  | w :: rest => update_stats rest (run_cycle w s)
  end.

(** Every content of the cache a handler can find while the poller runs
    through [ws] from the start of the process. *)
Definition observable (t0 : Q) (ws : list world) : list (gmap string pyval) :=
  initial_stats_cache t0 :: seen (update_stats ws (initial_state t0)).

(** ** The HTTP handlers  (lines 149-189) *)

Inductive reply :=
| Html (template : string) (context : gmap string pyval)
| Json (body : gmap string pyval)
| Plain (body : string) (status : Z)
| StaticFile (directory filename : string).

(** [format_uptime(stats_cache['uptime'])] *)
Definition uptime_formatted (c : gmap string pyval) : result pyval :=
  v ← cache_get c "uptime";
  seconds ← as_number v;
  mret (PStr (format_uptime seconds)).

Definition index (c : gmap string pyval) : result reply :=
  up ← uptime_formatted c;
  mret (Html "index.html"
          (<["neighborhood_id" := PStr (NEIGHBORHOOD_ID cfg)]>
          (<["stats" := PDict c]>
          (<["uptime_formatted" := up]> ∅)))).

Definition api_status (c : gmap string pyval) : result reply :=
  online ← cache_get c "online";
  uptime_seconds ← cache_get c "uptime";
  up ← uptime_formatted c;
  vouches ← cache_get c "vouches_processed";
  storage ← cache_get c "storage_used_mb";
  storage_rounded ← py_round2 storage;
  peers ← cache_get c "peers_connected";
  last_update ← cache_get c "last_update";
  mret (Json
          (<["neighborhood_id" := PStr (NEIGHBORHOOD_ID cfg)]>
          (<["online" := online]>
          (<["uptime_seconds" := uptime_seconds]>
          (<["uptime_formatted" := up]>
          (<["vouches_processed" := vouches]>
          (<["storage_used_mb" := storage_rounded]>
          (<["peers_connected" := peers]>
          (<["containers" := default (PDict ∅) (c !! "containers")]>
          (<["last_update" := last_update]> ∅)))))))))).

Definition api_neighborhood : result reply :=
  mret (Json
          (<["id" := PStr (NEIGHBORHOOD_ID cfg)]>
          (<["join_command" :=
               PStr ("curl -fsSL https://ourblock.community/install.sh | bash -s -- -n "
                     +:+ NEIGHBORHOOD_ID cfg)]> ∅))).

Definition health : result reply := mret (Plain "OK" 200).

Definition static_files (filename : string) : result reply :=
  mret (StaticFile "static" filename).

(** The text after [pre] when [s] starts with [pre]. *)
Fixpoint strip_prefix (pre s : string) : option string :=
  match pre, s with
  | EmptyString, _ => Some s
  | String a pre', String b s' =>
      if Ascii.eqb a b then strip_prefix pre' s' else None
  | String _ _, EmptyString => None
  end.

(** The [@app.route] table: the handler a GET on [path] runs against the
    current cache; [None] when no route matches. *)
Definition serve (path : string) (c : gmap string pyval) : option (result reply) :=
  if String.eqb path "/" then Some (index c)
  else if String.eqb path "/api/status" then Some (api_status c)
  else if String.eqb path "/api/neighborhood" then Some api_neighborhood
  else if String.eqb path "/health" then Some health
  else match strip_prefix "/static/" path with
       | Some filename =>
           if String.eqb filename "" then None else Some (static_files filename)
       | None => None
       end.

End Dashboard.

(** ** Reasoning about runs

    [post m w s Q]: running [m] in world [w] from state [s] ends in a state
    and a result that satisfy [Q]. *)
Definition post {A} (m : M A) (w : world) (s : pstate)
    (Q : pstate -> result A -> Prop) : Prop :=
  Q (fst (m w s)) (snd (m w s)).

(** [s'] differs from [s] at most in the log of outside calls. *)
Definition same_cache (s s' : pstate) : Prop :=
  stats_cache s' = stats_cache s /\ seen s' = seen s.

(** The state after the outside calls [cs] were logged, and after the
    assignment [stats_cache[key] = v]. *)
Definition logged (s : pstate) (cs : list call) : pstate :=
  {| stats_cache := stats_cache s; calls := calls s ++ cs; seen := seen s |}.

Definition stored (s : pstate) (key : string) (v : pyval) : pstate :=
  {| stats_cache := <[key := v]> (stats_cache s);
     calls := calls s;
     seen := seen s ++ [<[key := v]> (stats_cache s)] |}.

(** The value lines 116-125 assign to [online] for the answers to the
    requests for [/health] and for the root. *)
Definition online_of_answers (a1 a2 : result response) : bool :=
  match a1 with
  | Ok r1 => status_code r1 =? 200
  | Raise _ =>
      match a2 with
      | Ok r2 => (status_code r2 =? 200) || (status_code r2 =? 404)
      | Raise _ => false
      end
  end.

(** What [get_conductor_stats] hands back for an answer of the admin
    endpoint (lines 103-107). *)
Definition stats_of_answer (a : result response) : pyval :=
  match a with
  | Ok r =>
      if status_code r =? 200
      then match json r with Some v => v | None => PNone end
      else PNone
  | Raise _ => PNone
  end.

(** The keys a cycle assigns, in the order of lines 118-142. *)
Definition cycle_keys : list string :=
  ["online"; "uptime"; "storage_used_mb"; "containers"; "peers_connected";
   "last_update"].

(** The contents the cache goes through when the assignments [kvs] are made
    one after the other, starting from [c]. *)
Fixpoint caches_after (c : gmap string pyval) (kvs : list (string * pyval))
    : list (gmap string pyval) :=
  match kvs with
  | [] => []
  | (k, v) :: rest => <[k := v]> c :: caches_after (<[k := v]> c) rest
  end.

Definition assign_all (c : gmap string pyval) (kvs : list (string * pyval))
    : gmap string pyval :=
  foldl (fun c kv => <[kv.1 := kv.2]> c) c kvs.

(** What the handlers rely on for the value under each key. *)
Definition field_ok (k : string) (v : pyval) : Prop :=
  if String.eqb k "vouches_processed" then v = PInt 0
  else if String.eqb k "uptime" || String.eqb k "start_time"
       then exists q, as_number v = Ok q
  else if String.eqb k "storage_used_mb" then exists v', py_round2 v = Ok v'
  else True.

Definition cache_keys : list string :=
  ["online"; "uptime"; "start_time"; "vouches_processed"; "storage_used_mb";
   "peers_connected"; "containers"; "last_update"].

Definition cache_ok (c : gmap string pyval) : Prop :=
  forall k, k ∈ cache_keys -> exists v, c !! k = Some v /\ field_ok k v.

(** The status string lines 82-88 store for what
    [client.containers.get(...).status] did. *)
Definition status_of_lookup (a : result string) : string :=
  match a with
  | Ok st => st
  | Raise NotFound => "not found"
  | Raise _ => "unknown"
  end.


(** ** The mock conductor  (mock_conductor.py)

    Its three handlers, and the answer a client of the [requests] library
    gets from it for a request to [base] followed by a path. *)

Module MockConductor.

Definition health : reply := Plain "OK" 200.

Definition interfaces : reply := Json (<["peers" := PInt 3]> ∅).

Definition index : reply :=
  Json (<["service" := PStr "OurBlock Mock Conductor"]>
       (<["status" := PStr "running"]>
       (<["version" := PStr "dev"]> ∅))).

(** The response object for a reply: a [jsonify] body parses back to the
    dictionary; the plain body "OK" is not JSON, so [response.json()]
    raises. *)
Definition as_response (r : reply) : response :=
  match r with
  | Json body => {| status_code := 200; json := Some (PDict body) |}
  | Plain _ status => {| status_code := status; json := None |}
  | _ => {| status_code := 200; json := None |}
  end.

Definition not_found : response := {| status_code := 404; json := None |}.
Definition method_not_allowed : response := {| status_code := 405; json := None |}.

(** The [@app.route] table: [/health] and [/] take GET only,
    [/api/admin/v0/interfaces] takes GET and POST.  An empty path is the
    root. *)
Definition route (is_post : bool) (path : string) : response :=
  if String.eqb path "/health" then
    if is_post then method_not_allowed else as_response health
  else if String.eqb path "/api/admin/v0/interfaces" then as_response interfaces
  else if String.eqb path "/" || String.eqb path "" then
    if is_post then method_not_allowed else as_response index
  else not_found.

(** Requests to another base address find nobody listening. *)
Definition answer_at (base : string) (r : request) : result response :=
  match r with
  | GET url =>
      match strip_prefix base url with
      | Some path => Ok (route false path)
      | None => Raise RequestException
      end
  | POST url =>
      match strip_prefix base url with
      | Some path => Ok (route true path)
      | None => Raise RequestException
      end
  end.

End MockConductor.

(** ** Concrete configurations, worlds and data directories *)

Module Examples.

(** The defaults of lines 18-20, with the docker library present. *)
Definition cfg0 : config :=
  {| NEIGHBORHOOD_ID := "unknown";
     CONDUCTOR_URL := "http://ourblock:8001";
     DATA_DIR := "/data";
     DOCKER_AVAILABLE := true |}.

Definition cfg_no_docker : config :=
  {| NEIGHBORHOOD_ID := "unknown";
     CONDUCTOR_URL := "http://ourblock:8001";
     DATA_DIR := "/data";
     DOCKER_AVAILABLE := false |}.

(** Three files of 1, 2 and 3 bytes directly under the data root. *)
Definition fs_three : filesystem :=
  {| tree_at := fun _ => Listing [] ["a"; "b"; "c"];
     stat := fun fp =>
       if String.eqb fp "/data/a" then Present 1
       else if String.eqb fp "/data/b" then Present 2
       else if String.eqb fp "/data/c" then Present 3
       else Vanished |}.

(** A directory that cannot be listed, followed by one that holds a file
    of 5 bytes. *)
Definition fs_locked : filesystem :=
  {| tree_at := fun _ =>
       Listing [("locked", Unreadable); ("open", Listing [] ["x"])] [];
     stat := fun fp =>
       if String.eqb fp "/data/open/x" then Present 5 else Vanished |}.

Definition fs_empty : filesystem :=
  {| tree_at := fun _ => Listing [] []; stat := fun _ => Vanished |}.

Definition answer (code : Z) (body : option pyval) : result response :=
  Ok {| status_code := code; json := body |}.

(** The conductor of [mock_conductor.py], with the admin body given:
    [/health] answers 200, the root answers 200. *)
Definition mock_world (admin_body : pyval) : world :=
  {| http := fun r =>
       match r with
       | GET _ => answer 200 None
       | POST _ => answer 200 (Some admin_body)
       end;
     time_time := 100;
     datetime_now_isoformat := "2025-01-01T00:00:10";
     fs := fs_three;
     docker_client := Ok (fun _ => Ok "running") |}.

Definition peers_body (n : Z) : pyval := PDict (<["peers" := PInt n]> ∅).

(** A non-empty JSON object without a [peers] field. *)
Definition no_peers_body : pyval := PDict (<["status" := PStr "ok"]> ∅).

(** [/health] answers with status 500; the root would answer 200. *)
Definition world_health_500 : world :=
  {| http := fun r =>
       match r with
       | GET url =>
           if String.eqb url "http://ourblock:8001/health"
           then answer 500 None else answer 200 None
       | POST _ => answer 200 (Some (peers_body 3))
       end;
     time_time := 100;
     datetime_now_isoformat := "2025-01-01T00:00:10";
     fs := fs_three;
     docker_client := Ok (fun _ => Ok "running") |}.

(** Nothing answers: every request and the container runtime raise. *)
Definition world_down : world :=
  {| http := fun _ => Raise RequestException;
     time_time := 100;
     datetime_now_isoformat := "2025-01-01T00:00:10";
     fs := {| tree_at := fun _ => Unreadable; stat := fun _ => Vanished |};
     docker_client := Raise DockerException |}.

(** A listed file that is gone when the scan looks it up, between two
    files of 1 and 3 bytes. *)
Definition fs_vanished : filesystem :=
  {| tree_at := fun _ => Listing [] ["a"; "b"; "c"];
     stat := fun fp =>
       if String.eqb fp "/data/a" then Present 1
       else if String.eqb fp "/data/c" then Present 3
       else Vanished |}.

(** The world in which the conductor is the mock conductor. *)
Definition world_mock_conductor : world :=
  {| http := MockConductor.answer_at "http://ourblock:8001";
     time_time := 100;
     datetime_now_isoformat := "2025-01-01T00:00:10";
     fs := fs_three;
     docker_client := Ok (fun name =>
       if String.eqb name "ourblock-lair" then Raise NotFound
       else if String.eqb name "ourblock-ui" then Raise DockerException
       else Ok "running") |}.

(** A 200 answer of the admin endpoint whose body is the list [[1]]. *)
Definition list_body : pyval := PList [PInt 1].

End Examples.

(** * Properties *)

(** ** Uptime formatting *)

Lemma py_floordiv_pos (s : Q) (b : positive) :
  py_floordiv s (inject_Z (Zpos b)) = Qnum s / Zpos (Qden s * b).
Proof.
  destruct s as [n d]. unfold py_floordiv, Qdiv, Qmult, Qinv, Qfloor. simpl.
  by rewrite Z.mul_1_r.
Qed.

Lemma py_mod_pos (s : Q) (m : positive) :
  (py_mod s (inject_Z (Zpos m)) ==
   (Qnum s - Zpos m * Zpos (Qden s) * (Qnum s / Zpos (Qden s * m))) # Qden s)%Q.
Proof.
  unfold py_mod. rewrite py_floordiv_pos. destruct s as [n d].
  unfold Qeq, Qminus, Qplus, Qopp, Qmult, inject_Z. simpl. lia.
Qed.

Lemma py_floordiv_proper (x y m : Q) : (x == y)%Q -> py_floordiv x m = py_floordiv y m.
Proof. intros E. unfold py_floordiv. by rewrite E. Qed.

(** Taking the remainder by [a * b] before dividing by [b] leaves the
    quotient by [b] reduced modulo [a]. *)
Lemma floordiv_of_mod (s : Q) (a b : positive) :
  py_floordiv (py_mod s (inject_Z (Zpos (a * b)))) (inject_Z (Zpos b)) =
  py_floordiv s (inject_Z (Zpos b)) mod Zpos a.
Proof.
  rewrite (py_floordiv_proper _ _ _ (py_mod_pos s (a * b))).
  rewrite !py_floordiv_pos. simpl Qnum. simpl Qden.
  set (p := Qnum s). set (q := Qden s).
  set (D := p / Z.pos (q * (a * b))).
  replace (p - Z.pos (a * b) * Z.pos q * D) with (p + (- (Z.pos a * D)) * Z.pos (q * b)) by lia.
  rewrite Z.div_add by lia.
  rewrite Z.mod_eq by lia.
  replace (p / Z.pos (q * b) / Z.pos a) with D; [lia|].
  unfold D. rewrite Z.div_div by lia. f_equal. lia.
Qed.

Lemma format_uptime_units (s : Q) :
  py_floordiv s 86400 = py_floordiv s 60 / 1440 /\
  py_floordiv (py_mod s 86400) 3600 = (py_floordiv s 60 / 60) mod 24 /\
  py_floordiv (py_mod s 3600) 60 = py_floordiv s 60 mod 60.
Proof.
  split; [|split].
  - change 86400%Q with (inject_Z (Zpos 86400)).
    change 60%Q with (inject_Z (Zpos 60)).
    rewrite !py_floordiv_pos, Z.div_div by lia. f_equal. lia.
  - change 86400%Q with (inject_Z (Zpos (24 * 3600))).
    change 3600%Q with (inject_Z (Zpos 3600)).
    rewrite floordiv_of_mod. f_equal.
    change 60%Q with (inject_Z (Zpos 60)).
    rewrite !py_floordiv_pos, Z.div_div by lia. f_equal. lia.
  - change 3600%Q with (inject_Z (Zpos (60 * 60))).
    change 60%Q with (inject_Z (Zpos 60)).
    by rewrite floordiv_of_mod.
Qed.

(** C7.  [format_uptime] renders a number of seconds as whole days, hours
    and minutes of the elapsed whole minutes: minutes are always shown,
    hours are shown once a full hour has elapsed and days once a full day
    has; 0 s and 59 s give "0m", 60 s "1m", 3600 s "1h 0m" and 90061 s
    "1d 1h 1m". *)
Theorem format_uptime_days_hours_minutes :
  (forall seconds : Q,
     let total_minutes := Qfloor (seconds / 60) in
     let days := total_minutes / 1440 in
     let hours := (total_minutes / 60) mod 24 in
     let minutes := total_minutes mod 60 in
     format_uptime seconds =
       if 0 <? days then
         str_of_int days +:+ "d " +:+ str_of_int hours +:+ "h " +:+
         str_of_int minutes +:+ "m"
       else if 0 <? hours then
         str_of_int hours +:+ "h " +:+ str_of_int minutes +:+ "m"
       else str_of_int minutes +:+ "m") /\
  format_uptime 0 = "0m" /\
  format_uptime 59 = "0m" /\
  format_uptime 60 = "1m" /\
  format_uptime 3600 = "1h 0m" /\
  format_uptime 90061 = "1d 1h 1m".
Proof.
  split; [|repeat split; reflexivity].
  intros seconds. cbv zeta.
  destruct (format_uptime_units seconds) as (Hd & Hh & Hm).
  unfold format_uptime. fold (py_floordiv seconds 60).
  by rewrite Hd, Hh, Hm.
Qed.

(** ** The storage scan *)

Lemma scan_filenames_paths fs dirpath filenames t :
  scan_filenames fs dirpath filenames t =
  scan_paths fs (map (os_path_join dirpath) filenames) t.
Proof.
  revert t. induction filenames as [|f rest IH]; intros t; simpl; [done|].
  destruct (os_path_exists fs _); [|apply IH].
  destruct (os_path_getsize fs _); [apply IH|done].
Qed.

Lemma scan_paths_app fs l1 l2 t :
  scan_paths fs (l1 ++ l2) t =
  match scan_paths fs l1 t with
  | (t', None) => scan_paths fs l2 t'
  | (t', Some e) => (t', Some e)
  end.
Proof.
  revert t. induction l1 as [|fp rest IH]; intros t; simpl; [done|].
  destruct (os_path_exists fs fp); [|apply IH].
  destruct (os_path_getsize fs fp); [apply IH|done].
Qed.

Lemma scan_walk_paths fs walk t :
  scan_walk fs walk t = scan_paths fs (walk_paths walk) t.
Proof.
  revert t. induction walk as [|[[dirpath dirnames] filenames] rest IH]; intros t; [done|].
  simpl. rewrite scan_paths_app, scan_filenames_paths.
  destruct (scan_paths fs _ t) as [t' [e|]]; [done|apply IH].
Qed.

(** The scan adds up the sizes of the paths it looks up until the first
    size lookup that raises. *)
Lemma scan_paths_until_error fs paths t :
  exists visited rest,
    paths = visited ++ rest /\
    Forall (fun fp => stat fs fp <> StatFails) visited /\
    (rest = [] /\ snd (scan_paths fs paths t) = None \/
     exists fp rest', rest = fp :: rest' /\ stat fs fp = StatFails /\
                      snd (scan_paths fs paths t) = Some OSError) /\
    fst (scan_paths fs paths t) = t + sum_sizes fs visited.
Proof.
  revert t. induction paths as [|fp paths IH]; intros t.
  - exists [], []. simpl. repeat split; auto with lia.
  - simpl. unfold os_path_exists, os_path_getsize.
    destruct (stat fs fp) as [n| |] eqn:E.
    + destruct (IH (t + n)) as (visited & rest & -> & Hv & Hr & Ht).
      exists (fp :: visited), rest. repeat split; [|done|].
      * constructor; [congruence|done].
      * rewrite Ht. simpl. rewrite E. simpl. lia.
    + destruct (IH t) as (visited & rest & -> & Hv & Hr & Ht).
      exists (fp :: visited), rest. repeat split; [|done|].
      * constructor; [congruence|done].
      * rewrite Ht. simpl. rewrite E. simpl. lia.
    + exists [], (fp :: paths). simpl. repeat split; [constructor| |lia].
      right. by exists fp, paths.
Qed.

Lemma scan_paths_all_present fs paths sizes t :
  Forall2 (fun fp n => stat fs fp = Present n) paths sizes ->
  scan_paths fs paths t = (t + sum_list_Z sizes, None).
Proof.
  intros H. revert t. induction H as [|fp n paths sizes E _ IH]; intros t; simpl.
  - f_equal. lia.
  - unfold os_path_exists, os_path_getsize. rewrite E, IH. f_equal. lia.
Qed.

Lemma py_truediv_mb (n : Z) : (py_truediv n (1024 * 1024) == n # 1048576)%Q.
Proof. unfold py_truediv, Qeq, Qdiv, Qmult, Qinv, inject_Z. simpl. lia. Qed.

(** C5.  When every path the walk enumerates under the data root is a
    present file, the scan accumulates exactly the sum of their sizes in
    bytes and returns that sum divided by 1024 * 1024, i.e. in megabytes:
    files of sizes a, b and c give (a + b + c) / 1048576, and a root
    without files gives 0. *)
Theorem storage_used_is_sum_in_megabytes (cfg : config) (f : filesystem) (sizes : list Z) :
  Forall2 (fun fp n => stat f fp = Present n)
    (walk_paths (os_walk (DATA_DIR cfg) (tree_at f (DATA_DIR cfg)))) sizes ->
  scan_total cfg f = (sum_list_Z sizes, None) /\
  (get_storage_used cfg f == sum_list_Z sizes # 1048576)%Q.
Proof.
  intros H. assert (E : scan_total cfg f = (sum_list_Z sizes, None)).
  { unfold scan_total. rewrite scan_walk_paths.
    by rewrite (scan_paths_all_present _ _ _ _ H). }
  split; [done|]. unfold get_storage_used. rewrite E. apply py_truediv_mb.
Qed.

Lemma storage_used_three_files (cfg : config) (f : filesystem) (n1 n2 n3 : string) (a b c : Z) :
  tree_at f (DATA_DIR cfg) = Listing [] [n1; n2; n3] ->
  stat f (os_path_join (DATA_DIR cfg) n1) = Present a ->
  stat f (os_path_join (DATA_DIR cfg) n2) = Present b ->
  stat f (os_path_join (DATA_DIR cfg) n3) = Present c ->
  (get_storage_used cfg f == (a + b + c) # 1048576)%Q.
Proof.
  intros Ht Ha Hb Hc.
  destruct (storage_used_is_sum_in_megabytes cfg f [a; b; c]) as [_ ->].
  - rewrite Ht. simpl. repeat constructor; done.
  - simpl. by rewrite Z.add_0_r, Z.add_assoc.
Qed.

Lemma storage_used_empty_root (cfg : config) (f : filesystem) :
  tree_at f (DATA_DIR cfg) = Listing [] [] ->
  (get_storage_used cfg f == 0)%Q.
Proof.
  intros Ht.
  destruct (storage_used_is_sum_in_megabytes cfg f []) as [_ ->]; [|done].
  rewrite Ht. simpl. constructor.
Qed.

(** Induction on directory trees, with the hypothesis for every
    subdirectory of a listing. *)
Lemma dir_tree_ind (P : dir -> Prop) :
  P Unreadable ->
  (forall subdirs files, Forall (fun p => P p.2) subdirs -> P (Listing subdirs files)) ->
  forall d, P d.
Proof.
  intros HU HL. fix IH 1. intros [|subdirs files]; [exact HU|].
  apply HL. induction subdirs as [|[name sub] rest IHrest]; constructor.
  - apply IH.
  - exact IHrest.
Qed.

Lemma walk_paths_app w1 w2 : walk_paths (w1 ++ w2) = walk_paths w1 ++ walk_paths w2.
Proof. unfold walk_paths. apply flat_map_app. Qed.

(** The walk enumerates the same paths as in the tree from which the
    directories that cannot be listed are removed. *)
Lemma walk_paths_prune (d : dir) (top : string) :
  walk_paths (os_walk top d) = walk_paths (os_walk top (prune d)).
Proof.
  revert top. induction d as [|subdirs files IH] using dir_tree_ind; intros top; [done|].
  simpl. f_equal.
  induction IH as [|[name sub] rest Hsub _ IHrest]; [done|].
  simpl in Hsub. rewrite walk_paths_app, IHrest, Hsub.
  destruct sub as [|subdirs' files']; [done|].
  by rewrite <- walk_paths_app.
Qed.

(** C6.  The scan never raises.  It returns, in megabytes, the sum of the
    sizes of the paths it looked up before the first size lookup that
    raised (all enumerated paths when none raised; zero when nothing was
    read).  The enumerated paths are those of the directories [os.walk]
    could list: a directory that cannot be listed, the root included, is
    left out as if it were not there, and the walk goes on. *)
Theorem storage_scan_sums_until_lookup_error (cfg : config) (f : filesystem) :
  let paths := walk_paths (os_walk (DATA_DIR cfg) (tree_at f (DATA_DIR cfg))) in
  paths = walk_paths (os_walk (DATA_DIR cfg) (prune (tree_at f (DATA_DIR cfg)))) /\
  exists visited rest,
    paths = visited ++ rest /\
    Forall (fun fp => stat f fp <> StatFails) visited /\
    (rest = [] /\ snd (scan_total cfg f) = None \/
     exists fp rest', rest = fp :: rest' /\ stat f fp = StatFails /\
                      snd (scan_total cfg f) = Some OSError) /\
    fst (scan_total cfg f) = sum_sizes f visited /\
    (get_storage_used cfg f == sum_sizes f visited # 1048576)%Q.
Proof.
  cbv zeta. split; [apply walk_paths_prune|].
  unfold get_storage_used, scan_total. rewrite scan_walk_paths.
  destruct (scan_paths_until_error f
              (walk_paths (os_walk (DATA_DIR cfg) (tree_at f (DATA_DIR cfg)))) 0)
    as (visited & rest & E & Hv & Hr & Ht).
  exists visited, rest. rewrite Ht. simpl. repeat split; try done.
  apply py_truediv_mb.
Qed.

Lemma storage_used_unreadable_root (cfg : config) (f : filesystem) :
  tree_at f (DATA_DIR cfg) = Unreadable ->
  scan_total cfg f = (0, None) /\ (get_storage_used cfg f == 0)%Q.
Proof.
  intros Ht. unfold get_storage_used, scan_total. rewrite Ht. done.
Qed.

(** ** Rules for [post] *)

Section PostRules.
Context {A B : Type}.
Implicit Types (w : world) (s : pstate).

Lemma post_ret (a : A) w s Q : Q s (Ok a) -> post (mret a) w s Q.
Proof. done. Qed.

Lemma post_bind (m : M A) (f : A -> M B) w s Q :
  post m w s (fun s' r =>
    match r with
    | Ok a => post (f a) w s' Q
    | Raise e => Q s' (Raise e)
    end) ->
  post (m ≫= f) w s Q.
Proof.
  unfold post, mbind, M_bind. by destruct (m w s) as [s' [a|e]].
Qed.

Lemma post_try (m : M A) (h : exn -> M A) w s Q :
  post m w s (fun s' r =>
    match r with
    | Ok a => Q s' (Ok a)
    | Raise e => post (h e) w s' Q
    end) ->
  post (try_except m h) w s Q.
Proof.
  unfold post, try_except. by destruct (m w s) as [s' [a|e]].
Qed.

Lemma post_lift (r : result A) w s Q : Q s r -> post (lift r) w s Q.
Proof. done. Qed.

Lemma post_ask (f : world -> A) w s Q : Q s (Ok (f w)) -> post (ask f) w s Q.
Proof. done. Qed.

Lemma post_mono (m : M A) w s (Q1 Q2 : pstate -> result A -> Prop) :
  post m w s Q1 -> (forall s' r, Q1 s' r -> Q2 s' r) -> post m w s Q2.
Proof. unfold post. auto. Qed.

End PostRules.

Lemma post_log (c : call) w s Q :
  Q (logged s [c]) (Ok tt) -> post (log_call c) w s Q.
Proof. done. Qed.

Lemma post_load (key : string) w s Q :
  Q s (cache_get (stats_cache s) key) -> post (load key) w s Q.
Proof. done. Qed.

Lemma post_store (key : string) (v : pyval) w s Q :
  Q (stored s key v) (Ok tt) -> post (store key v) w s Q.
Proof. done. Qed.

(** One step of symbolic execution. *)
Ltac post_step :=
  cbv beta match;
  lazymatch goal with
  | |- post (mbind _ _) _ _ _ => apply post_bind
  | |- post (try_except _ _) _ _ _ => apply post_try
  | |- post (mret _) _ _ _ => apply post_ret
  | |- post (lift _) _ _ _ => apply post_lift
  | |- post (ask _) _ _ _ => apply post_ask
  | |- post (log_call _) _ _ _ => apply post_log
  | |- post (load _) _ _ _ => apply post_load
  | |- post (store _ _) _ _ _ => apply post_store
  end.

Lemma same_cache_refl s : same_cache s s.
Proof. done. Qed.

(** ** The container inspection *)

Lemma container_loop_post client items status w s :
  post (container_loop client items status) w s (fun s' r =>
    same_cache s s' /\ exists d, r = Ok d).
Proof.
  revert status s. induction items as [|[name container_name] rest IH]; intros status s.
  - simpl. post_step. eauto using same_cache_refl.
  - simpl. post_step. post_step. unfold containers_get_status.
    do 3 post_step.
    destruct (client container_name) as [st|e]; [|post_step];
      (eapply post_mono; [apply IH|]; intros s' r [[Hc Hs] Hr]; by repeat split).
Qed.

Lemma get_container_status_post cfg w s :
  post (get_container_status cfg) w s (fun s' r =>
    same_cache s s' /\ exists d, r = Ok d).
Proof.
  unfold get_container_status. destruct (DOCKER_AVAILABLE cfg); cbn [negb].
  - post_step. post_step. unfold docker_from_env. do 4 post_step.
    destruct (docker_client w) as [client|e]; post_step.
    + eapply post_mono; [apply container_loop_post|].
      intros s' r [[Hc Hs] [d' ->]]. split; [by split|by eauto].
    + post_step. split; [by split|by eauto].
  - post_step. split; [by split|by eauto].
Qed.

(** C4.  When the docker library could not be imported, every call of
    [get_container_status] returns the dictionary that gives the three
    names conductor, lair and ui the one fixed string
    "docker unavailable", whatever the container runtime would answer,
    and makes no call to it: the state, the log of outside calls
    included, is left as it was. *)
Theorem degraded_mode_fixed_status (cfg : config) (w : world) (s : pstate) :
  DOCKER_AVAILABLE cfg = false ->
  exists d : gmap string pyval,
    get_container_status cfg w s = (s, Ok d) /\
    d !! "conductor" = Some (PStr "docker unavailable") /\
    d !! "lair" = Some (PStr "docker unavailable") /\
    d !! "ui" = Some (PStr "docker unavailable") /\
    (forall name, is_Some (d !! name) -> name = "conductor" \/ name = "lair" \/ name = "ui") /\
    calls (fst (get_container_status cfg w s)) = calls s.
Proof.
  intros Hd. exists docker_unavailable.
  unfold get_container_status. rewrite Hd. simpl.
  repeat split; try done.
  intros name [v Hv]. unfold docker_unavailable in Hv.
  destruct (decide (name = "conductor")) as [|N1]; [by left|].
  destruct (decide (name = "lair")) as [|N2]; [by auto|].
  destruct (decide (name = "ui")) as [|N3]; [by auto|].
  by rewrite !lookup_insert_ne, lookup_empty in Hv.
Qed.

(** ** The health check *)

Lemma check_conductor_health_run (cfg : config) (w : world) (s : pstate) :
  check_conductor_health cfg w s =
  match http w (GET (CONDUCTOR_URL cfg +:+ "/health")) with
  | Ok r1 =>
      (stored (logged s [CRequest (GET (CONDUCTOR_URL cfg +:+ "/health"))])
         "online" (PBool (status_code r1 =? 200)), Ok tt)
  | Raise _ =>
      (stored (logged s [CRequest (GET (CONDUCTOR_URL cfg +:+ "/health"));
                         CRequest (GET (CONDUCTOR_URL cfg))])
         "online"
         (PBool match http w (GET (CONDUCTOR_URL cfg)) with
                | Ok r2 => (status_code r2 =? 200) || (status_code r2 =? 404)
                | Raise _ => false
                end), Ok tt)
  end.
Proof.
  unfold check_conductor_health, try_except, requests_get, mbind, M_bind,
    log_call, ask, lift, store, stored, logged.
  destruct (http w (GET (CONDUCTOR_URL cfg +:+ "/health"))) as [r1|e1]; [done|].
  cbn [stats_cache calls seen].
  destruct (http w (GET (CONDUCTOR_URL cfg))) as [r2|e2];
    by rewrite <- app_assoc.
Qed.

(** ** The peer-count fetch *)

Lemma get_conductor_stats_run (cfg : config) (w : world) (s : pstate) :
  get_conductor_stats cfg w s =
  (logged s [CRequest (POST (CONDUCTOR_URL cfg +:+ "/api/admin/v0/interfaces"))],
   Ok (stats_of_answer (http w (POST (CONDUCTOR_URL cfg +:+ "/api/admin/v0/interfaces"))))).
Proof.
  unfold get_conductor_stats, try_except, requests_post, response_json, mbind, M_bind,
    mret, M_ret, log_call, ask, lift, logged, stats_of_answer.
  destruct (http w (POST _)) as [r|e]; [|done].
  destruct (status_code r =? 200); [|done].
  by destruct (json r).
Qed.

Lemma post_run {A} (m : M A) w s s1 r1 Q :
  m w s = (s1, r1) -> Q s1 r1 -> post m w s Q.
Proof. unfold post. by intros ->. Qed.

Lemma get_container_status_run (cfg : config) (w : world) (s : pstate) :
  exists s' d, get_container_status cfg w s = (s', Ok d) /\ same_cache s s'.
Proof.
  pose proof (get_container_status_post cfg w s) as H. unfold post in H.
  destruct (get_container_status cfg w s) as [s' r]. simpl in H.
  destruct H as [Hs [d ->]]. by exists s', d.
Qed.

Lemma check_conductor_health_online (cfg : config) (w : world) (s : pstate) :
  exists s',
    check_conductor_health cfg w s = (s', Ok tt) /\
    stats_cache s' =
      <["online" := PBool (online_of_answers
                             (http w (GET (CONDUCTOR_URL cfg +:+ "/health")))
                             (http w (GET (CONDUCTOR_URL cfg))))]> (stats_cache s) /\
    seen s' = seen s ++ [stats_cache s'].
Proof.
  rewrite check_conductor_health_run. unfold online_of_answers.
  destruct (http w (GET (CONDUCTOR_URL cfg +:+ "/health"))); eexists; by repeat split.
Qed.

(** ** One polling cycle, assignment by assignment *)

Lemma cycle_body_run (cfg : config) (w : world) (s : pstate) :
  let b := online_of_answers (http w (GET (CONDUCTOR_URL cfg +:+ "/health")))
                             (http w (GET (CONDUCTOR_URL cfg))) in
  let v := stats_of_answer
             (http w (POST (CONDUCTOR_URL cfg +:+ "/api/admin/v0/interfaces"))) in
  let c1 := <["online" := PBool b]> (stats_cache s) in
  post (cycle_body cfg) w s (fun s' r =>
    match cache_get (stats_cache s) "start_time" ≫= py_float_sub (time_time w) with
    | Raise e => r = Raise e /\ stats_cache s' = c1 /\ seen s' = seen s ++ [c1]
    | Ok up =>
        exists d : gmap string pyval,
        let c2 := <["uptime" := up]> c1 in
        let c3 := <["storage_used_mb" := PFloat (get_storage_used cfg (fs w))]> c2 in
        let c4 := <["containers" := PDict d]> c3 in
        if truthy v then
          match py_get v "peers" (PInt 0) with
          | Ok p =>
              let c5 := <["peers_connected" := p]> c4 in
              let c6 := <["last_update" := PStr (datetime_now_isoformat w)]> c5 in
              r = Ok tt /\ stats_cache s' = c6 /\
              seen s' = seen s ++ [c1; c2; c3; c4; c5; c6]
          | Raise e =>
              r = Raise e /\ stats_cache s' = c4 /\ seen s' = seen s ++ [c1; c2; c3; c4]
          end
        else
          let c6 := <["last_update" := PStr (datetime_now_isoformat w)]> c4 in
          r = Ok tt /\ stats_cache s' = c6 /\ seen s' = seen s ++ [c1; c2; c3; c4; c6]
    end).
Proof.
  intros b v c1.
  destruct (check_conductor_health_online cfg w s) as (s1 & E1 & Hc1 & Hs1).
  fold b in Hc1. fold c1 in Hc1. rewrite Hc1 in Hs1.
  unfold cycle_body.
  post_step. eapply post_run; [exact E1|].
  repeat post_step.
  assert (Hst : cache_get (stats_cache s1) "start_time" = cache_get (stats_cache s) "start_time").
  { unfold cache_get. rewrite Hc1. unfold c1. by rewrite lookup_insert_ne. }
  rewrite Hst. clear Hst.
  destruct (cache_get (stats_cache s) "start_time") as [st|e]; cbn [mbind result_bind];
    [|by repeat split].
  repeat post_step.
  destruct (py_float_sub (time_time w) st) as [up|e]; [|by repeat split].
  repeat post_step.
  destruct (get_container_status_run cfg w
              (stored (stored s1 "uptime" up) "storage_used_mb"
                 (PFloat (get_storage_used cfg (fs w))))) as (s4 & d & E4 & Hc4 & Hs4).
  eapply post_run; [exact E4|].
  repeat post_step.
  eapply post_run; [apply get_conductor_stats_run|].
  fold v. exists d.
  repeat post_step. destruct (truthy v).
  - repeat post_step. destruct (py_get v "peers" (PInt 0)) as [p|e].
    + repeat post_step. simpl. rewrite Hc4, Hs4. simpl. rewrite Hc1, Hs1.
      repeat split. by rewrite <- !app_assoc.
    + simpl. rewrite Hc4, Hs4. simpl. rewrite Hc1, Hs1.
      repeat split. by rewrite <- !app_assoc.
  - repeat post_step. simpl. rewrite Hc4, Hs4. simpl. rewrite Hc1, Hs1.
    repeat split. by rewrite <- !app_assoc.
Qed.

Ltac solve_sublist :=
  simpl; unfold cycle_keys;
  repeat first [apply sublist_nil | apply sublist_skip | apply sublist_cons].

Lemma run_cycle_body (cfg : config) (w : world) (s : pstate) :
  run_cycle cfg w s = fst (cycle_body cfg w s).
Proof.
  unfold run_cycle, update_stats_iteration, try_except.
  by destruct (cycle_body cfg w s) as [s' [[]|e]].
Qed.

Lemma py_float_sub_ok t v up : py_float_sub t v = Ok up -> exists q, up = PFloat q.
Proof. unfold py_float_sub. destruct (as_number v); naive_solver. Qed.

(** A cycle is a sequence of single-key assignments into the cache, on
    keys taken in order from [cycle_keys]. *)
Lemma run_cycle_assignments (cfg : config) (w : world) (s : pstate) :
  exists kvs : list (string * pyval),
    sublist kvs.*1 cycle_keys /\
    Forall (fun kv => field_ok kv.1 kv.2) kvs /\
    stats_cache (run_cycle cfg w s) = assign_all (stats_cache s) kvs /\
    seen (run_cycle cfg w s) = seen s ++ caches_after (stats_cache s) kvs.
Proof.
  rewrite run_cycle_body.
  pose proof (cycle_body_run cfg w s) as H. cbv zeta in H. unfold post in H.
  set (b := online_of_answers _ _) in *.
  set (v := stats_of_answer _) in *.
  destruct (cache_get (stats_cache s) "start_time") as [st|e]; cbn [mbind result_bind] in H.
  2: { destruct H as (_ & -> & ->). exists [("online", PBool b)].
       split; [solve_sublist|]. split; [by repeat constructor|done]. }
  destruct (py_float_sub (time_time w) st) as [up|e] eqn:Eup.
  2: { destruct H as (_ & -> & ->). exists [("online", PBool b)].
       split; [solve_sublist|]. split; [by repeat constructor|done]. }
  destruct (py_float_sub_ok _ _ _ Eup) as [q ->].
  destruct H as [d H]. destruct (truthy v).
  - destruct (py_get v "peers" (PInt 0)) as [p|e].
    + destruct H as (_ & -> & ->).
      exists [("online", PBool b); ("uptime", PFloat q);
              ("storage_used_mb", PFloat (get_storage_used cfg (fs w)));
              ("containers", PDict d); ("peers_connected", p);
              ("last_update", PStr (datetime_now_isoformat w))].
      split; [solve_sublist|]. split; [|done].
      repeat constructor; unfold field_ok; simpl; eauto.
    + destruct H as (_ & -> & ->).
      exists [("online", PBool b); ("uptime", PFloat q);
              ("storage_used_mb", PFloat (get_storage_used cfg (fs w)));
              ("containers", PDict d)].
      split; [solve_sublist|]. split; [|done].
      repeat constructor; unfold field_ok; simpl; eauto.
  - destruct H as (_ & -> & ->).
    exists [("online", PBool b); ("uptime", PFloat q);
            ("storage_used_mb", PFloat (get_storage_used cfg (fs w)));
            ("containers", PDict d);
            ("last_update", PStr (datetime_now_isoformat w))].
    split; [solve_sublist|]. split; [|done].
    repeat constructor; unfold field_ok; simpl; eauto.
Qed.

Lemma run_cycle_online (cfg : config) (w : world) (s : pstate) :
  stats_cache (run_cycle cfg w s) !! "online" =
  Some (PBool (online_of_answers (http w (GET (CONDUCTOR_URL cfg +:+ "/health")))
                                 (http w (GET (CONDUCTOR_URL cfg))))).
Proof.
  rewrite run_cycle_body.
  pose proof (cycle_body_run cfg w s) as H. cbv zeta in H. unfold post in H.
  destruct (cache_get (stats_cache s) "start_time" ≫= py_float_sub (time_time w))
    as [up|e].
  2: { destruct H as (_ & -> & _). by rewrite lookup_insert_eq. }
  destruct H as [d H]. destruct (truthy _).
  - destruct (py_get _ _ _); destruct H as (_ & -> & _);
      rewrite !lookup_insert_ne by done; apply lookup_insert_eq.
  - destruct H as (_ & -> & _).
    rewrite !lookup_insert_ne by done. apply lookup_insert_eq.
Qed.

(** C2.  The fallback request to the service root is made only when the
    request to [/health] raises (connection error, timeout).  When
    [/health] answers, no second request is made and [online] is true
    exactly when its status is 200, so an answer with any other status
    gives [online = False].  When [/health] raises, the root is requested
    and [online] is true exactly when it answers with status 200 or 404;
    it is false when that request raises too.  The value is the one the
    cycle publishes. *)
Theorem health_fallback_only_on_exception (cfg : config) (w : world) (s : pstate) :
  let health_url := CONDUCTOR_URL cfg +:+ "/health" in
  let s' := fst (check_conductor_health cfg w s) in
  let published := stats_cache (run_cycle cfg w s) !! "online" in
  match http w (GET health_url) with
  | Ok r1 =>
      calls s' = calls s ++ [CRequest (GET health_url)] /\
      stats_cache s' !! "online" = Some (PBool (status_code r1 =? 200)) /\
      published = Some (PBool (status_code r1 =? 200))
  | Raise _ =>
      let fallback :=
        match http w (GET (CONDUCTOR_URL cfg)) with
        | Ok r2 => (status_code r2 =? 200) || (status_code r2 =? 404)
        | Raise _ => false
        end in
      calls s' = calls s ++ [CRequest (GET health_url); CRequest (GET (CONDUCTOR_URL cfg))] /\
      stats_cache s' !! "online" = Some (PBool fallback) /\
      published = Some (PBool fallback)
  end.
Proof.
  cbv zeta. rewrite check_conductor_health_run, run_cycle_online.
  unfold online_of_answers.
  destruct (http w (GET (CONDUCTOR_URL cfg +:+ "/health"))) as [r1|e1]; simpl;
    by rewrite lookup_insert_eq.
Qed.

(** ** Sequences of assignments *)

Lemma assign_all_other (c : gmap string pyval) kvs k :
  k ∉ kvs.*1 -> assign_all c kvs !! k = c !! k.
Proof.
  revert c. induction kvs as [|[k0 v0] rest IH]; intros c Hk; [done|].
  simpl in *. apply not_elem_of_cons in Hk as [Hne Hk].
  unfold assign_all in *. simpl. rewrite IH by done. by rewrite lookup_insert_ne.
Qed.

Lemma caches_after_other (c : gmap string pyval) kvs k c' :
  k ∉ kvs.*1 -> c' ∈ caches_after c kvs -> c' !! k = c !! k.
Proof.
  revert c. induction kvs as [|[k0 v0] rest IH]; intros c Hk Hc'; simpl in *.
  - by apply elem_of_nil in Hc'.
  - apply not_elem_of_cons in Hk as [Hne Hk].
    apply elem_of_cons in Hc' as [->|Hc'].
    + by rewrite lookup_insert_ne.
    + rewrite (IH _ Hk Hc'). by rewrite lookup_insert_ne.
Qed.

(** When no key is assigned twice, every intermediate content holds, under
    each key, the value from before the assignments or the final one. *)
Lemma caches_after_mix (c : gmap string pyval) kvs c' k :
  NoDup kvs.*1 -> c' ∈ caches_after c kvs ->
  c' !! k = c !! k \/ c' !! k = assign_all c kvs !! k.
Proof.
  revert c. induction kvs as [|[k0 v0] rest IH]; intros c Hnd Hc'; simpl in *.
  - by apply elem_of_nil in Hc'.
  - apply NoDup_cons in Hnd as [Hk0 Hnd].
    change (assign_all c ((k0, v0) :: rest)) with (assign_all (<[k0 := v0]> c) rest).
    destruct (decide (k = k0)) as [->|Hne].
    + right. rewrite assign_all_other by done.
      apply elem_of_cons in Hc' as [->|Hc']; [done|].
      by rewrite (caches_after_other _ _ _ _ Hk0 Hc').
    + apply elem_of_cons in Hc' as [->|Hc'].
      * left. by rewrite lookup_insert_ne.
      * destruct (IH _ Hnd Hc') as [E|E]; [left|by right].
        rewrite E. by rewrite lookup_insert_ne.
Qed.

Lemma NoDup_cycle_keys : NoDup cycle_keys.
Proof. apply (bool_decide_unpack _). by vm_compute. Qed.

(** ** What every content of the cache satisfies *)

Lemma cache_ok_insert (c : gmap string pyval) k v :
  cache_ok c -> field_ok k v -> cache_ok (<[k := v]> c).
Proof.
  intros Hc Hf k' Hin. destruct (decide (k' = k)) as [->|Hne].
  - exists v. by rewrite lookup_insert_eq.
  - rewrite lookup_insert_ne by done. by apply Hc.
Qed.

Lemma cache_ok_initial (t0 : Q) : cache_ok (initial_stats_cache t0).
Proof.
  intros k Hin. unfold cache_keys in Hin.
  repeat (apply elem_of_cons in Hin as [->|Hin]); [..|by apply elem_of_nil in Hin];
    eexists; (split; [by vm_compute|]); unfold field_ok; simpl; eauto.
Qed.

Lemma cache_ok_assignments (c : gmap string pyval) kvs :
  Forall (fun kv => field_ok kv.1 kv.2) kvs -> cache_ok c ->
  cache_ok (assign_all c kvs) /\ Forall cache_ok (caches_after c kvs).
Proof.
  intros H. revert c. induction H as [|[k v] rest Hf _ IH]; intros c Hc.
  - by split.
  - destruct (IH (<[k := v]> c)) as [H1 H2]; [by apply cache_ok_insert|].
    split; [done|]. simpl. constructor; [by apply cache_ok_insert|done].
Qed.

Lemma run_cycle_ok (cfg : config) (w : world) (s : pstate) :
  cache_ok (stats_cache s) -> Forall cache_ok (seen s) ->
  cache_ok (stats_cache (run_cycle cfg w s)) /\ Forall cache_ok (seen (run_cycle cfg w s)).
Proof.
  intros Hc Hs.
  destruct (run_cycle_assignments cfg w s) as (kvs & _ & Hf & -> & ->).
  destruct (cache_ok_assignments _ _ Hf Hc) as [H1 H2].
  split; [done|]. by apply Forall_app.
Qed.

Lemma update_stats_ok (cfg : config) (ws : list world) (s : pstate) :
  cache_ok (stats_cache s) -> Forall cache_ok (seen s) ->
  cache_ok (stats_cache (update_stats cfg ws s)) /\
  Forall cache_ok (seen (update_stats cfg ws s)).
Proof.
  revert s. induction ws as [|w ws IH]; intros s Hc Hs; [done|].
  simpl. destruct (run_cycle_ok cfg w s Hc Hs). by apply IH.
Qed.

Lemma observable_ok (cfg : config) (t0 : Q) (ws : list world) (c : gmap string pyval) :
  c ∈ observable cfg t0 ws -> cache_ok c.
Proof.
  unfold observable. intros [->|Hin]%elem_of_cons; [apply cache_ok_initial|].
  destruct (update_stats_ok cfg ws (initial_state t0)) as [_ H];
    [apply cache_ok_initial|by constructor|].
  by eapply Forall_forall in H.
Qed.

Lemma cache_ok_field (c : gmap string pyval) k :
  cache_ok c -> bool_decide (k ∈ cache_keys) = true ->
  exists v, c !! k = Some v /\ field_ok k v.
Proof. intros Hc Hk. apply Hc. by apply bool_decide_eq_true in Hk. Qed.

Lemma api_status_ok (cfg : config) (c : gmap string pyval) :
  cache_ok c ->
  exists body,
    api_status cfg c = Ok (Json body) /\
    body !! "vouches_processed" = Some (PInt 0) /\
    body !! "peers_connected" = c !! "peers_connected" /\
    body !! "online" = c !! "online".
Proof.
  intros Hc.
  destruct (cache_ok_field c "online" Hc) as (v1 & E1 & _); [done|].
  destruct (cache_ok_field c "uptime" Hc) as (v2 & E2 & [q2 F2]); [done|].
  destruct (cache_ok_field c "vouches_processed" Hc) as (v3 & E3 & F3); [done|].
  destruct (cache_ok_field c "storage_used_mb" Hc) as (v4 & E4 & [v4' F4]); [done|].
  destruct (cache_ok_field c "peers_connected" Hc) as (v5 & E5 & _); [done|].
  destruct (cache_ok_field c "last_update" Hc) as (v6 & E6 & _); [done|].
  unfold field_ok in F3. simpl in F3. subst v3.
  unfold api_status, uptime_formatted, cache_get.
  rewrite E1, E2, E3, E4, E5, E6. cbn [mbind result_bind mret result_ret].
  rewrite F2, F4. cbn [mbind result_bind mret result_ret].
  eexists. split; [done|].
  split; [|split]; by vm_compute.
Qed.

(** C8.  In every content the cache can have while the poller runs, from
    the start of the process on and between any two assignments,
    vouches_processed is 0, and the reply of [/api/status] built from that
    content reports 0 for it. *)
Theorem vouches_processed_always_zero (cfg : config) (t0 : Q) (ws : list world)
    (c : gmap string pyval) :
  c ∈ observable cfg t0 ws ->
  c !! "vouches_processed" = Some (PInt 0) /\
  exists body,
    api_status cfg c = Ok (Json body) /\
    body !! "vouches_processed" = Some (PInt 0).
Proof.
  intros Hc%observable_ok. split.
  - destruct (cache_ok_field c "vouches_processed" Hc) as (v & E & F); [done|].
    unfold field_ok in F. simpl in F. by subst v.
  - destruct (api_status_ok cfg c Hc) as (body & E & Hv & _). eauto.
Qed.

(** C9.  Whatever the cache holds, a GET on [/health] is answered with the
    body "OK" and status 200. *)
Theorem health_always_ok (cfg : config) (c : gmap string pyval) :
  serve cfg "/health" c = Some (Ok (Plain "OK" 200)) /\ health = Ok (Plain "OK" 200).
Proof. done. Qed.

(** ** The peer count *)

Lemma stats_of_answer_dict (a : result response) (d : gmap string pyval) :
  stats_of_answer a = PDict d ->
  exists r, a = Ok r /\ status_code r = 200 /\ json r = Some (PDict d).
Proof.
  unfold stats_of_answer. destruct a as [r|e]; [|done].
  destruct (status_code r =? 200) eqn:E; [|done].
  apply Z.eqb_eq in E. destruct (json r) as [v|] eqn:Ej; [|done].
  intros ->. by exists r.
Qed.

Lemma py_get_not_dict (v : pyval) key dflt :
  (forall d, v <> PDict d) -> exists e, py_get v key dflt = Raise e.
Proof. destruct v; simpl; eauto. intros H. by destruct (H d). Qed.

Lemma truthy_dict (d : gmap string pyval) : truthy (PDict d) = true <-> d <> ∅.
Proof.
  simpl. rewrite negb_true_iff, bool_decide_eq_false. done.
Qed.

Lemma peers_kept (cfg : config) (w : world) (s : pstate) (p : pyval) :
  stats_cache s !! "peers_connected" = Some p ->
  (forall r d,
     http w (POST (CONDUCTOR_URL cfg +:+ "/api/admin/v0/interfaces")) = Ok r ->
     status_code r = 200 -> json r = Some (PDict d) -> d = ∅) ->
  stats_cache (run_cycle cfg w s) !! "peers_connected" = Some p.
Proof.
  intros Hp Hfail. rewrite run_cycle_body.
  pose proof (cycle_body_run cfg w s) as H. cbv zeta in H. unfold post in H.
  set (b := online_of_answers _ _) in *.
  set (v := stats_of_answer _) in *.
  destruct (cache_get (stats_cache s) "start_time" ≫= py_float_sub (time_time w))
    as [up|e].
  2: { destruct H as (_ & -> & _). by rewrite lookup_insert_ne. }
  destruct H as [d H].
  destruct (truthy v) eqn:Ht.
  - destruct (py_get_not_dict v "peers" (PInt 0)) as [e Hg].
    { intros d' Hv. destruct (stats_of_answer_dict _ _ Hv) as (r & Hr & Hcode & Hj).
      rewrite Hv in Ht. apply truthy_dict in Ht. apply Ht. eauto. }
    rewrite Hg in H. destruct H as (_ & -> & _). by rewrite !lookup_insert_ne.
  - destruct H as (_ & -> & _). by rewrite !lookup_insert_ne.
Qed.

Lemma update_stats_cache_ok (cfg : config) (t0 : Q) (ws : list world) :
  cache_ok (stats_cache (update_stats cfg ws (initial_state t0))).
Proof.
  apply update_stats_ok; [apply cache_ok_initial|by constructor].
Qed.

Lemma start_time_readable (c : gmap string pyval) (t : Q) :
  cache_ok c ->
  exists q, cache_get c "start_time" ≫= py_float_sub t = Ok (PFloat q).
Proof.
  intros Hc.
  destruct (cache_ok_field c "start_time" Hc) as (v & E & [q F]); [done|].
  unfold cache_get. rewrite E. cbn [mbind result_bind].
  unfold py_float_sub. rewrite F. eauto.
Qed.

Lemma peers_from_nonempty_object (cfg : config) (w : world) (s : pstate)
    (r : response) (d : gmap string pyval) :
  cache_ok (stats_cache s) ->
  http w (POST (CONDUCTOR_URL cfg +:+ "/api/admin/v0/interfaces")) = Ok r ->
  status_code r = 200 -> json r = Some (PDict d) -> d <> ∅ ->
  stats_cache (run_cycle cfg w s) !! "peers_connected" =
    Some (default (PInt 0) (d !! "peers")).
Proof.
  intros Hc Hr Hcode Hj Hd. rewrite run_cycle_body.
  pose proof (cycle_body_run cfg w s) as H. cbv zeta in H. unfold post in H.
  destruct (start_time_readable _ (time_time w) Hc) as [q Hq].
  rewrite Hq, Hr in H. unfold stats_of_answer in H.
  rewrite Hcode, Hj in H. simpl in H.
  destruct H as [d' H].
  rewrite (bool_decide_eq_false_2 _ Hd) in H. simpl in H.
  destruct H as (_ & -> & _).
  by rewrite lookup_insert_ne, lookup_insert_eq.
Qed.

(** C3.  In the running poller the published peers_connected keeps its
    previous value through a cycle unless the admin endpoint answers with
    status 200 and a body that parses to a non-empty JSON object: it is
    kept on a timeout or connection error, on any other status, on a body
    that is not JSON, on an empty object and on a body that is no object
    at all.  A non-empty object sets it to the value of its [peers] field,
    and to 0 when it has no such field. *)
Theorem peers_kept_unless_nonempty_object (cfg : config) (t0 : Q) (ws : list world)
    (w : world) (p : pyval) :
  let s := update_stats cfg ws (initial_state t0) in
  let admin := http w (POST (CONDUCTOR_URL cfg +:+ "/api/admin/v0/interfaces")) in
  stats_cache s !! "peers_connected" = Some p ->
  ((forall r d, admin = Ok r -> status_code r = 200 -> json r = Some (PDict d) -> d = ∅) ->
   stats_cache (run_cycle cfg w s) !! "peers_connected" = Some p) /\
  (forall r d, admin = Ok r -> status_code r = 200 -> json r = Some (PDict d) -> d <> ∅ ->
   stats_cache (run_cycle cfg w s) !! "peers_connected" =
     Some (default (PInt 0) (d !! "peers"))).
Proof.
  intros s admin Hp. split.
  - by apply peers_kept.
  - intros r d Hr Hcode Hj Hd.
    apply (peers_from_nonempty_object cfg w s r d); try done.
    apply update_stats_cache_ok.
Qed.

(** C10.  When the admin endpoint answers with status 200 and a body that
    parses to a JSON object, a cycle of the running poller leaves
    peers_connected as it was if the object is empty, and sets it to 0 if
    the object is not empty and has no [peers] field. *)
Theorem peers_empty_object_kept_missing_field_zero (cfg : config) (t0 : Q)
    (ws : list world) (w : world) (r : response) (d : gmap string pyval) :
  let s := update_stats cfg ws (initial_state t0) in
  http w (POST (CONDUCTOR_URL cfg +:+ "/api/admin/v0/interfaces")) = Ok r ->
  status_code r = 200 ->
  json r = Some (PDict d) ->
  (d = ∅ ->
   stats_cache (run_cycle cfg w s) !! "peers_connected" =
   stats_cache s !! "peers_connected") /\
  (d <> ∅ -> d !! "peers" = None ->
   stats_cache (run_cycle cfg w s) !! "peers_connected" = Some (PInt 0)).
Proof.
  intros s Hr Hcode Hj.
  pose proof (update_stats_cache_ok cfg t0 ws) as Hc. fold s in Hc.
  split.
  - intros ->.
    destruct (cache_ok_field _ "peers_connected" Hc) as (p & Hp & _); [done|].
    rewrite Hp. apply peers_kept; [done|].
    intros r' d' Hr' _ Hj'. congruence.
  - intros Hd Hnone.
    rewrite (peers_from_nonempty_object cfg w s r d Hc Hr Hcode Hj Hd).
    by rewrite Hnone.
Qed.

(** * Concrete runs *)

Import Examples.

(** C1, counterexample.  During the first cycle against the mock
    conductor a reader can find a content of the cache whose [online] is
    the value of the running cycle while its [last_update] is still the
    value from before the cycle: a mix that is neither the previous
    content nor the one the cycle ends with. *)
Lemma reader_sees_mixed_snapshot :
  let s0 := initial_state 90 in
  let s1 := run_cycle cfg0 (mock_world (peers_body 3)) s0 in
  exists c,
    c ∈ observable cfg0 90 [mock_world (peers_body 3)] /\
    c !! "online" = Some (PBool true) /\
    stats_cache s0 !! "online" = Some (PBool false) /\
    stats_cache s1 !! "online" = Some (PBool true) /\
    c !! "last_update" = Some PNone /\
    stats_cache s0 !! "last_update" = Some PNone /\
    stats_cache s1 !! "last_update" = Some (PStr "2025-01-01T00:00:10") /\
    c <> stats_cache s0 /\ c <> stats_cache s1.
Proof.
  cbv zeta. exists (<["online" := PBool true]> (initial_stats_cache 90)).
  split; [apply (list_elem_of_lookup_2 _ 1%nat); by vm_compute|].
  repeat split; by vm_compute.
Qed.

(** C2, counterexample.  [/health] answers with status 500 and the root
    would answer 200: [online] is set to false and the root is never
    requested. *)
Lemma non_ok_status_gets_no_fallback :
  let health_url := "http://ourblock:8001/health" in
  let s' := fst (check_conductor_health cfg0 world_health_500 (initial_state 90)) in
  http world_health_500 (GET health_url) = Ok {| status_code := 500; json := None |} /\
  http world_health_500 (GET "http://ourblock:8001") = Ok {| status_code := 200; json := None |} /\
  stats_cache s' !! "online" = Some (PBool false) /\
  calls s' = [CRequest (GET health_url)] /\
  stats_cache (run_cycle cfg0 world_health_500 (initial_state 90)) !! "online" =
    Some (PBool false).
Proof. cbv zeta. repeat split; by vm_compute. Qed.

(** C3, counterexample.  After a cycle that fetched a peer count of 5, the
    admin endpoint answers 200 with the object [{"status": "ok"}], which
    has no [peers] field: peers_connected does not stay 5, it becomes 0. *)
Lemma missing_field_resets_peers :
  let s1 := run_cycle cfg0 (mock_world (peers_body 5)) (initial_state 90) in
  let s2 := run_cycle cfg0 (mock_world no_peers_body) s1 in
  py_get no_peers_body "peers" PNone = Ok PNone /\
  stats_cache s1 !! "peers_connected" = Some (PInt 5) /\
  stats_cache s2 !! "peers_connected" = Some (PInt 0).
Proof. cbv zeta. repeat split; by vm_compute. Qed.

(** C5, counterexample.  With files of 1, 2 and 3 bytes under the data
    root the scan accumulates 6 bytes and returns 6 / 1048576, not 6. *)
Lemma storage_used_is_not_bytes :
  scan_total cfg0 fs_three = (6, None) /\
  (get_storage_used cfg0 fs_three == 6 # 1048576)%Q /\
  ~ (get_storage_used cfg0 fs_three == 6)%Q.
Proof. repeat split; by vm_compute. Qed.

(** C6, counterexample.  The first directory under the root cannot be
    listed; nothing has been read at that point, yet the walk goes on to
    the next directory and the scan returns its 5 bytes (in megabytes),
    not 0. *)
Lemma unreadable_directory_is_skipped :
  tree_at fs_locked "/data" =
    Listing [("locked", Unreadable); ("open", Listing [] ["x"])] [] /\
  os_walk "/data" (tree_at fs_locked "/data") =
    [("/data", ["locked"; "open"], []); ("/data/open", [], ["x"])] /\
  scan_total cfg0 fs_locked = (5, None) /\
  (get_storage_used cfg0 fs_locked == 5 # 1048576)%Q /\
  ~ (get_storage_used cfg0 fs_locked == 0)%Q.
Proof. repeat split; by vm_compute. Qed.

(** C3, instance: a peer count of 5 survives a cycle in which every
    request fails. *)
Lemma peers_kept_unless_nonempty_object_witness :
  let s1 := update_stats cfg0 [mock_world (peers_body 5)] (initial_state 90) in
  stats_cache s1 !! "peers_connected" = Some (PInt 5) /\
  stats_cache (run_cycle cfg0 world_down s1) !! "peers_connected" = Some (PInt 5).
Proof.
  cbv zeta. split; [vm_compute; reflexivity|].
  apply (peers_kept_unless_nonempty_object cfg0 90 [mock_world (peers_body 5)]
           world_down (PInt 5)).
  - vm_compute. reflexivity.
  - intros r d H. vm_compute in H. discriminate H.
Defined.

(** C4, instance: without the docker library the three names get
    "docker unavailable" although the runtime would report "running". *)
Lemma degraded_mode_fixed_status_witness :
  DOCKER_AVAILABLE cfg_no_docker = false /\
  exists d : gmap string pyval,
    get_container_status cfg_no_docker (mock_world (peers_body 3)) (initial_state 90) =
      (initial_state 90, Ok d) /\
    d !! "conductor" = Some (PStr "docker unavailable") /\
    d !! "lair" = Some (PStr "docker unavailable") /\
    d !! "ui" = Some (PStr "docker unavailable") /\
    (forall name, is_Some (d !! name) -> name = "conductor" \/ name = "lair" \/ name = "ui") /\
    calls (fst (get_container_status cfg_no_docker (mock_world (peers_body 3))
                  (initial_state 90))) = calls (initial_state 90).
Proof.
  split; [reflexivity|].
  apply (degraded_mode_fixed_status cfg_no_docker (mock_world (peers_body 3))
           (initial_state 90)).
  reflexivity.
Defined.

(** C5, instance: files of 1, 2 and 3 bytes give 6 bytes, 6 / 1048576 MB. *)
Lemma storage_used_is_sum_in_megabytes_witness :
  Forall2 (fun fp n => stat fs_three fp = Present n)
    (walk_paths (os_walk (DATA_DIR cfg0) (tree_at fs_three (DATA_DIR cfg0)))) [1; 2; 3] /\
  scan_total cfg0 fs_three = (sum_list_Z [1; 2; 3], None) /\
  (get_storage_used cfg0 fs_three == sum_list_Z [1%Z; 2%Z; 3%Z] # 1048576)%Q.
Proof.
  assert (H : Forall2 (fun fp n => stat fs_three fp = Present n)
                (walk_paths (os_walk (DATA_DIR cfg0) (tree_at fs_three (DATA_DIR cfg0))))
                [1; 2; 3]).
  { simpl. repeat constructor. }
  split; [exact H|].
  apply (storage_used_is_sum_in_megabytes cfg0 fs_three [1; 2; 3] H).
Defined.

(** C8, instance: the content found after the first assignment of the
    first cycle. *)
Lemma vouches_processed_always_zero_witness :
  let c := <["online" := PBool true]> (initial_stats_cache 90) in
  c ∈ observable cfg0 90 [mock_world (peers_body 3)] /\
  c !! "vouches_processed" = Some (PInt 0) /\
  exists body,
    api_status cfg0 c = Ok (Json body) /\
    body !! "vouches_processed" = Some (PInt 0).
Proof.
  cbv zeta.
  assert (H : <["online" := PBool true]> (initial_stats_cache 90)
                ∈ observable cfg0 90 [mock_world (peers_body 3)]).
  { apply (list_elem_of_lookup_2 _ 1%nat). vm_compute. reflexivity. }
  split; [exact H|].
  apply (vouches_processed_always_zero cfg0 90 [mock_world (peers_body 3)] _ H).
Defined.

(** C10, instance: after a cycle that fetched 5 peers, an empty object
    leaves 5 and the object [{"status": "ok"}] gives 0. *)
Lemma peers_empty_object_kept_missing_field_zero_witness :
  let s := update_stats cfg0 [mock_world (peers_body 5)] (initial_state 90) in
  stats_cache s !! "peers_connected" = Some (PInt 5) /\
  stats_cache (run_cycle cfg0 (mock_world (PDict ∅)) s) !! "peers_connected" =
    stats_cache s !! "peers_connected" /\
  stats_cache (run_cycle cfg0 (mock_world no_peers_body) s) !! "peers_connected" =
    Some (PInt 0).
Proof.
  cbv zeta. split; [vm_compute; reflexivity|]. split.
  - apply (peers_empty_object_kept_missing_field_zero cfg0 90 [mock_world (peers_body 5)]
             (mock_world (PDict ∅)) {| status_code := 200; json := Some (PDict ∅) |} ∅);
      reflexivity.
  - apply (peers_empty_object_kept_missing_field_zero cfg0 90 [mock_world (peers_body 5)]
             (mock_world no_peers_body)
             {| status_code := 200; json := Some no_peers_body |}
             (<["status" := PStr "ok"]> ∅)).
    + reflexivity.
    + reflexivity.
    + reflexivity.
    + intros E. apply (f_equal (fun m => m !! "status")) in E.
      vm_compute in E. discriminate E.
    + vm_compute. reflexivity.
Defined.

(** * Further properties of the probes, the poller and the handlers *)

(** ** [get_container_status], with the runtime available *)

Lemma logged_nil (s : pstate) : logged s [] = s.
Proof. destruct s. unfold logged. simpl. by rewrite app_nil_r. Qed.

Lemma logged_logged (s : pstate) cs1 cs2 :
  logged (logged s cs1) cs2 = logged s (cs1 ++ cs2).
Proof. unfold logged. simpl. by rewrite app_assoc. Qed.

Lemma container_loop_run client items status w s :
  container_loop client items status w s =
  (logged s (map (fun item => CContainersGet item.2) items),
   Ok (foldl (fun st item => <[item.1 := PStr (status_of_lookup (client item.2))]> st)
         status items)).
Proof.
  revert status s. induction items as [|[name container_name] rest IH]; intros status s.
  - simpl. by rewrite logged_nil.
  - simpl. unfold mbind, M_bind, try_except, containers_get_status, mbind, M_bind,
      log_call, lift, mret, M_ret.
    fold (logged s [CContainersGet container_name]).
    destruct (client container_name) as [st|e]; simpl.
    + rewrite IH, logged_logged. done.
    + rewrite IH, logged_logged. by destruct e.
Qed.

Lemma get_container_status_available (cfg : config) (w : world) (s : pstate) :
  DOCKER_AVAILABLE cfg = true ->
  get_container_status cfg w s =
  match docker_client w with
  | Ok client =>
      (logged s [CFromEnv; CContainersGet "ourblock-conductor";
                 CContainersGet "ourblock-lair"; CContainersGet "ourblock-ui"],
       Ok (<["ui" := PStr (status_of_lookup (client "ourblock-ui"))]>
          (<["lair" := PStr (status_of_lookup (client "ourblock-lair"))]>
          (<["conductor" := PStr (status_of_lookup (client "ourblock-conductor"))]> ∅))))
  | Raise _ => (logged s [CFromEnv], Ok all_unknown)
  end.
Proof.
  intros Ha. unfold get_container_status. rewrite Ha. cbn [negb].
  unfold try_except, docker_from_env, mbind, M_bind, log_call, ask, lift.
  fold (logged s [CFromEnv]).
  destruct (docker_client w) as [client|e]; [|done].
  rewrite container_loop_run, logged_logged. done.
Qed.

(** X1.  With the docker library present and a client at hand, the three
    containers are asked for one after the other and each name gets the
    status of its own container only: the reported status, "not found"
    when the container does not exist, "unknown" on any other error.  A
    failure for one name changes nothing for the others. *)
Theorem container_status_per_name (cfg : config) (w : world) (s : pstate)
    (client : string -> result string) :
  DOCKER_AVAILABLE cfg = true ->
  docker_client w = Ok client ->
  exists d : gmap string pyval,
    get_container_status cfg w s =
      (logged s [CFromEnv; CContainersGet "ourblock-conductor";
                 CContainersGet "ourblock-lair"; CContainersGet "ourblock-ui"], Ok d) /\
    d !! "conductor" = Some (PStr match client "ourblock-conductor" with
                                  | Ok st => st
                                  | Raise NotFound => "not found"
                                  | Raise _ => "unknown"
                                  end) /\
    d !! "lair" = Some (PStr match client "ourblock-lair" with
                             | Ok st => st
                             | Raise NotFound => "not found"
                             | Raise _ => "unknown"
                             end) /\
    d !! "ui" = Some (PStr match client "ourblock-ui" with
                           | Ok st => st
                           | Raise NotFound => "not found"
                           | Raise _ => "unknown"
                           end).
Proof.
  intros Ha Hc. rewrite (get_container_status_available cfg w s Ha), Hc.
  eexists. split; [done|]. unfold status_of_lookup.
  split; [|split].
  - rewrite !lookup_insert_ne by done. apply lookup_insert_eq.
  - rewrite lookup_insert_ne by done. apply lookup_insert_eq.
  - apply lookup_insert_eq.
Qed.

(** X2.  When [docker.from_env()] raises, no container is asked for and the
    three names all get "unknown". *)
Theorem container_status_without_client (cfg : config) (w : world) (s : pstate) (e : exn) :
  DOCKER_AVAILABLE cfg = true ->
  docker_client w = Raise e ->
  exists d : gmap string pyval,
    get_container_status cfg w s = (logged s [CFromEnv], Ok d) /\
    d !! "conductor" = Some (PStr "unknown") /\
    d !! "lair" = Some (PStr "unknown") /\
    d !! "ui" = Some (PStr "unknown").
Proof.
  intros Ha Hc. rewrite (get_container_status_available cfg w s Ha), Hc.
  exists all_unknown. by repeat split.
Qed.

Lemma three_names (m : gmap string pyval) (a b c : string) :
  m !! "conductor" = Some (PStr a) ->
  m !! "lair" = Some (PStr b) ->
  m !! "ui" = Some (PStr c) ->
  (forall name, name <> "conductor" -> name <> "lair" -> name <> "ui" -> m !! name = None) ->
  (forall name, is_Some (m !! name) <-> name ∈ ["conductor"; "lair"; "ui"]) /\
  (forall name v, m !! name = Some v -> exists st, v = PStr st).
Proof.
  intros Ha Hb Hc Hn. split.
  - intros name. rewrite !elem_of_cons, elem_of_nil.
    destruct (decide (name = "conductor")) as [->|N1]; [rewrite Ha; split; [auto|by eauto]|].
    destruct (decide (name = "lair")) as [->|N2]; [rewrite Hb; split; [auto|by eauto]|].
    destruct (decide (name = "ui")) as [->|N3]; [rewrite Hc; split; [auto|by eauto]|].
    rewrite Hn by done. split; [by intros [? ?]|]. intros [?|[?|[?|[]]]]; done.
  - intros name v.
    destruct (decide (name = "conductor")) as [->|N1]; [rewrite Ha; intros [= <-]; by eauto|].
    destruct (decide (name = "lair")) as [->|N2]; [rewrite Hb; intros [= <-]; by eauto|].
    destruct (decide (name = "ui")) as [->|N3]; [rewrite Hc; intros [= <-]; by eauto|].
    by rewrite Hn.
Qed.

(** X3.  Whatever the configuration and the container runtime do,
    [get_container_status] raises nothing, leaves the cache alone and
    returns a dictionary with exactly the keys conductor, lair and ui, each
    bound to a string. *)
Theorem container_status_always_three_names (cfg : config) (w : world) (s : pstate) :
  exists (s' : pstate) (d : gmap string pyval),
    get_container_status cfg w s = (s', Ok d) /\
    stats_cache s' = stats_cache s /\
    seen s' = seen s /\
    (forall name, is_Some (d !! name) <-> name ∈ ["conductor"; "lair"; "ui"]) /\
    (forall name v, d !! name = Some v -> exists st, v = PStr st).
Proof.
  destruct (DOCKER_AVAILABLE cfg) eqn:Ha.
  - rewrite (get_container_status_available cfg w s Ha).
    destruct (docker_client w) as [client|e]; eexists _, _;
      (split; [done|]); (split; [done|]); (split; [done|]);
      eapply three_names; try (by vm_compute);
      intros name N1 N2 N3; unfold all_unknown;
      by rewrite !lookup_insert_ne, lookup_empty.
  - unfold get_container_status. rewrite Ha. cbn [negb].
    exists s, docker_unavailable. do 3 (split; [done|]).
    eapply three_names; try (by vm_compute).
    intros name N1 N2 N3. unfold docker_unavailable.
    by rewrite !lookup_insert_ne, lookup_empty.
Qed.

Lemma get_container_status_uniform (cfg : config) (w : world) :
  exists cs d, forall s, get_container_status cfg w s = (logged s cs, Ok d).
Proof.
  destruct (DOCKER_AVAILABLE cfg) eqn:Ha.
  - destruct (docker_client w) as [client|e] eqn:Hc; eexists _, _; intros s;
      rewrite (get_container_status_available cfg w s Ha), Hc; reflexivity.
  - exists [], docker_unavailable. intros s.
    unfold get_container_status. rewrite Ha. cbn [negb]. by rewrite logged_nil.
Qed.

Lemma post_eq {A} (m : M A) w s (x : pstate * result A) :
  post m w s (fun s' r => (s', r) = x) -> m w s = x.
Proof. unfold post. by destruct (m w s). Qed.

(** The calls the health check makes. *)
Lemma check_conductor_health_calls (cfg : config) (w : world) (s : pstate) :
  calls (fst (check_conductor_health cfg w s)) =
  calls s ++
  match http w (GET (CONDUCTOR_URL cfg +:+ "/health")) with
  | Ok _ => [CRequest (GET (CONDUCTOR_URL cfg +:+ "/health"))]
  | Raise _ => [CRequest (GET (CONDUCTOR_URL cfg +:+ "/health"));
                CRequest (GET (CONDUCTOR_URL cfg))]
  end.
Proof.
  rewrite check_conductor_health_run.
  by destruct (http w (GET (CONDUCTOR_URL cfg +:+ "/health"))).
Qed.

(** The whole state a cycle ends in, when [start_time] can be read. *)
Lemma cycle_body_state (cfg : config) (w : world) (s : pstate) (q : Q) cs d :
  cache_get (stats_cache s) "start_time" ≫= py_float_sub (time_time w) = Ok (PFloat q) ->
  (forall s0, get_container_status cfg w s0 = (logged s0 cs, Ok d)) ->
  let v := stats_of_answer
             (http w (POST (CONDUCTOR_URL cfg +:+ "/api/admin/v0/interfaces"))) in
  let s1 := fst (check_conductor_health cfg w s) in
  let s3 := stored (stored s1 "uptime" (PFloat q)) "storage_used_mb"
              (PFloat (get_storage_used cfg (fs w))) in
  let s4 := stored (logged s3 cs) "containers" (PDict d) in
  let s5 := logged s4 [CRequest (POST (CONDUCTOR_URL cfg +:+ "/api/admin/v0/interfaces"))] in
  cycle_body cfg w s =
  if truthy v then
    match py_get v "peers" (PInt 0) with
    | Ok p => (stored (stored s5 "peers_connected" p) "last_update"
                 (PStr (datetime_now_isoformat w)), Ok tt)
    | Raise e => (s5, Raise e)
    end
  else (stored s5 "last_update" (PStr (datetime_now_isoformat w)), Ok tt).
Proof.
  intros Hq Hcs v s1 s3 s4 s5.
  destruct (check_conductor_health_online cfg w s) as (s1' & E1 & Hc1 & Hs1).
  assert (s1 = s1') as Es1 by (unfold s1; by rewrite E1).
  apply post_eq. unfold cycle_body.
  post_step. eapply post_run; [exact E1|]. rewrite <- Es1.
  repeat post_step.
  assert (Hst : cache_get (stats_cache s1) "start_time" = cache_get (stats_cache s) "start_time").
  { unfold cache_get. rewrite Es1, Hc1. by rewrite lookup_insert_ne. }
  rewrite Hst. clear Hst.
  destruct (cache_get (stats_cache s) "start_time") as [st|e];
    cbn [mbind result_bind] in Hq; [|done].
  repeat post_step. rewrite Hq.
  repeat post_step.
  eapply post_run; [apply Hcs|].
  repeat post_step.
  eapply post_run; [apply get_conductor_stats_run|].
  fold s3 s4 s5 v.
  repeat post_step. destruct (truthy v).
  - repeat post_step. destruct (py_get v "peers" (PInt 0)) as [p|e]; [|done].
    by repeat post_step.
  - by repeat post_step.
Qed.

(** ** Keys the poller never assigns *)

Lemma run_cycle_other_key (cfg : config) (w : world) (s : pstate) (k : string) :
  k ∉ cycle_keys ->
  stats_cache (run_cycle cfg w s) !! k = stats_cache s !! k /\
  forall c, c ∈ seen (run_cycle cfg w s) -> c ∈ seen s \/ c !! k = stats_cache s !! k.
Proof.
  intros Hk.
  destruct (run_cycle_assignments cfg w s) as (kvs & Hsub & _ & -> & ->).
  assert (Hk' : k ∉ kvs.*1).
  { intros Hin. apply Hk. by eapply elem_of_sublist. }
  split; [by apply assign_all_other|].
  intros c [Hc|Hc]%elem_of_app; [by left|right].
  by eapply caches_after_other.
Qed.

Lemma update_stats_other_key (cfg : config) (ws : list world) (s : pstate) (k : string) :
  k ∉ cycle_keys ->
  stats_cache (update_stats cfg ws s) !! k = stats_cache s !! k /\
  forall c, c ∈ seen (update_stats cfg ws s) -> c ∈ seen s \/ c !! k = stats_cache s !! k.
Proof.
  intros Hk. revert s. induction ws as [|w ws IH]; intros s; [by auto|].
  simpl. destruct (IH (run_cycle cfg w s)) as [H1 H2].
  destruct (run_cycle_other_key cfg w s k Hk) as [H3 H4].
  split; [by rewrite H1|].
  intros c Hc. destruct (H2 c Hc) as [Hin|E].
  - by apply H4.
  - right. by rewrite E.
Qed.

(** X4.  A key outside the six the cycle assigns keeps, in every content
    of the cache a reader can find, the value it was created with; in
    particular start_time is the start of the process for ever. *)
Theorem unassigned_keys_keep_initial_value (cfg : config) (t0 : Q) (ws : list world)
    (c : gmap string pyval) (k : string) :
  c ∈ observable cfg t0 ws ->
  k ∉ cycle_keys ->
  c !! k = initial_stats_cache t0 !! k /\
  c !! "start_time" = Some (PFloat t0).
Proof.
  intros Hc Hk.
  assert (H : forall k', k' ∉ cycle_keys -> c !! k' = initial_stats_cache t0 !! k').
  { intros k' Hk'. unfold observable in Hc.
    apply elem_of_cons in Hc as [->|Hc]; [done|].
    destruct (update_stats_other_key cfg ws (initial_state t0) k' Hk') as [_ H].
    destruct (H c Hc) as [Hin|E]; [by apply elem_of_nil in Hin|done]. }
  split; [by apply H|].
  rewrite H; [done|]. apply (bool_decide_unpack _). by vm_compute.
Qed.

Lemma running_start_time (cfg : config) (t0 : Q) (ws : list world) :
  stats_cache (update_stats cfg ws (initial_state t0)) !! "start_time" = Some (PFloat t0).
Proof.
  destruct (update_stats_other_key cfg ws (initial_state t0) "start_time") as [-> _]; [|done].
  apply (bool_decide_unpack _). by vm_compute.
Qed.

Lemma running_uptime (cfg : config) (t0 : Q) (ws : list world) (t : Q) :
  cache_get (stats_cache (update_stats cfg ws (initial_state t0))) "start_time"
    ≫= py_float_sub t = Ok (PFloat (t - t0)).
Proof. unfold cache_get. by rewrite running_start_time. Qed.

(** ** What a cycle of the running poller publishes *)

(** X5.  Failure isolation: in the running poller a cycle always publishes
    the uptime (the clock minus the start of the process), the storage
    used and the container statuses of this cycle, whatever the health
    check and the admin endpoint do, even when the cycle is then left by
    an exception. *)
Theorem cycle_publishes_probe_values (cfg : config) (t0 : Q) (ws : list world) (w : world) :
  let s := update_stats cfg ws (initial_state t0) in
  let s' := run_cycle cfg w s in
  stats_cache s' !! "uptime" = Some (PFloat (time_time w - t0)) /\
  stats_cache s' !! "storage_used_mb" = Some (PFloat (get_storage_used cfg (fs w))) /\
  exists d, (forall s0, snd (get_container_status cfg w s0) = Ok d) /\
            stats_cache s' !! "containers" = Some (PDict d).
Proof.
  intros s s'. unfold s'. rewrite run_cycle_body.
  destruct (get_container_status_uniform cfg w) as (cs & d & Hcs).
  rewrite (cycle_body_state cfg w s _ cs d (running_uptime cfg t0 ws (time_time w)) Hcs).
  assert (Hd : forall s0, snd (get_container_status cfg w s0) = Ok d)
    by (intros s0; by rewrite Hcs).
  destruct (truthy _); [destruct (py_get _ _ _)|]; simpl;
    (split; [|split; [|exists d; split; [exact Hd|]]]);
    rewrite ?lookup_insert_eq; rewrite ?lookup_insert_ne by done;
    rewrite ?lookup_insert_eq; rewrite ?lookup_insert_ne by done;
    rewrite ?lookup_insert_eq; rewrite ?lookup_insert_ne by done;
    by rewrite ?lookup_insert_eq.
Qed.

Lemma stats_of_answer_body (a : result response) (r : response) (v : pyval) :
  a = Ok r -> status_code r = 200 -> json r = Some v -> stats_of_answer a = v.
Proof. intros -> Hc Hj. unfold stats_of_answer. by rewrite Hc, Hj. Qed.

Lemma stats_of_answer_truthy (a : result response) :
  truthy (stats_of_answer a) = true ->
  exists r, a = Ok r /\ status_code r = 200 /\ json r = Some (stats_of_answer a).
Proof.
  unfold stats_of_answer. destruct a as [r|e]; [|done].
  destruct (status_code r =? 200) eqn:E; [|done]. apply Z.eqb_eq in E.
  destruct (json r) as [v|] eqn:Ej; [|done]. intros _. by exists r.
Qed.

(** X6.  When the admin endpoint answers 200 with a JSON body that is
    truthy but no object (a non-empty list or string, a non-zero number,
    [true]), line 139 raises [AttributeError]: the cycle of the running
    poller is left before the timestamp, so last_update and
    peers_connected keep their previous values although online, uptime,
    storage and containers were already renewed. *)
Theorem non_object_body_skips_timestamp (cfg : config) (t0 : Q) (ws : list world)
    (w : world) (r : response) (v : pyval) :
  let s := update_stats cfg ws (initial_state t0) in
  http w (POST (CONDUCTOR_URL cfg +:+ "/api/admin/v0/interfaces")) = Ok r ->
  status_code r = 200 ->
  json r = Some v ->
  truthy v = true ->
  (forall d, v <> PDict d) ->
  snd (cycle_body cfg w s) = Raise AttributeError /\
  snd (update_stats_iteration cfg w s) = Ok tt /\
  stats_cache (run_cycle cfg w s) !! "last_update" = stats_cache s !! "last_update" /\
  stats_cache (run_cycle cfg w s) !! "peers_connected" = stats_cache s !! "peers_connected" /\
  stats_cache (run_cycle cfg w s) !! "uptime" = Some (PFloat (time_time w - t0)).
Proof.
  intros s Hr Hcode Hj Ht Hv.
  destruct (get_container_status_uniform cfg w) as (cs & d & Hcs).
  pose proof (cycle_body_state cfg w s _ cs d (running_uptime cfg t0 ws (time_time w)) Hcs)
    as E. cbv zeta in E.
  rewrite (stats_of_answer_body _ r v Hr Hcode Hj), Ht in E.
  assert (Hg : py_get v "peers" (PInt 0) = Raise AttributeError).
  { destruct v; try done. by destruct (Hv d0). }
  rewrite Hg in E.
  unfold update_stats_iteration, try_except. rewrite run_cycle_body. fold s in E.
  rewrite E. simpl.
  rewrite check_conductor_health_run.
  repeat split; try done;
    destruct (http w (GET (CONDUCTOR_URL cfg +:+ "/health"))); simpl;
    rewrite ?lookup_insert_eq; rewrite ?lookup_insert_ne by done;
    rewrite ?lookup_insert_eq; rewrite ?lookup_insert_ne by done; done.
Qed.

Lemma last_update_stamped (cfg : config) (t0 : Q) (ws : list world) (w : world) :
  let s := update_stats cfg ws (initial_state t0) in
  (forall r v,
     http w (POST (CONDUCTOR_URL cfg +:+ "/api/admin/v0/interfaces")) = Ok r ->
     status_code r = 200 -> json r = Some v -> truthy v = true ->
     exists d, v = PDict d) ->
  snd (cycle_body cfg w s) = Ok tt /\
  stats_cache (run_cycle cfg w s) !! "last_update" =
    Some (PStr (datetime_now_isoformat w)).
Proof.
  intros s Hobj.
  destruct (get_container_status_uniform cfg w) as (cs & d & Hcs).
  pose proof (cycle_body_state cfg w s _ cs d (running_uptime cfg t0 ws (time_time w)) Hcs)
    as E. cbv zeta in E. fold s in E.
  rewrite run_cycle_body, E.
  destruct (truthy _) eqn:Ht.
  - destruct (stats_of_answer_truthy _ Ht) as (r & Hr & Hcode & Hj).
    destruct (Hobj r _ Hr Hcode Hj Ht) as [d' ->]. simpl.
    split; [done|]. apply lookup_insert_eq.
  - simpl. split; [done|]. apply lookup_insert_eq.
Qed.

(** X7.  In every other case the cycle of the running poller runs to its
    end and stamps last_update with the time of this cycle: when the admin
    request fails, answers another status, sends no JSON, a falsy body or
    an object. *)
Theorem cycle_stamps_last_update (cfg : config) (t0 : Q) (ws : list world) (w : world) :
  let s := update_stats cfg ws (initial_state t0) in
  (forall r v,
     http w (POST (CONDUCTOR_URL cfg +:+ "/api/admin/v0/interfaces")) = Ok r ->
     status_code r = 200 -> json r = Some v -> truthy v = true ->
     exists d, v = PDict d) ->
  snd (cycle_body cfg w s) = Ok tt /\
  stats_cache (run_cycle cfg w s) !! "last_update" =
    Some (PStr (datetime_now_isoformat w)).
Proof. apply last_update_stamped. Qed.

(** X8.  The outside calls of one cycle of the running poller, in order:
    the request to [/health], the request to the root only if the first
    one raised, the calls of the container inspection, and exactly one
    POST to the admin endpoint. *)
Theorem cycle_outside_calls (cfg : config) (t0 : Q) (ws : list world) (w : world) :
  let s := update_stats cfg ws (initial_state t0) in
  let health_url := CONDUCTOR_URL cfg +:+ "/health" in
  exists docker_calls,
    (forall s0, calls (fst (get_container_status cfg w s0)) = calls s0 ++ docker_calls) /\
    calls (run_cycle cfg w s) =
      calls s ++
      match http w (GET health_url) with
      | Ok _ => [CRequest (GET health_url)]
      | Raise _ => [CRequest (GET health_url); CRequest (GET (CONDUCTOR_URL cfg))]
      end ++
      docker_calls ++
      [CRequest (POST (CONDUCTOR_URL cfg +:+ "/api/admin/v0/interfaces"))].
Proof.
  intros s health_url.
  destruct (get_container_status_uniform cfg w) as (cs & d & Hcs).
  exists cs. split; [intros s0; by rewrite Hcs|].
  pose proof (cycle_body_state cfg w s _ cs d (running_uptime cfg t0 ws (time_time w)) Hcs)
    as E. cbv zeta in E. fold s in E.
  rewrite run_cycle_body, E.
  assert (Hc : forall X, calls X = calls (fst (check_conductor_health cfg w s)) ++ cs ++
                 [CRequest (POST (CONDUCTOR_URL cfg +:+ "/api/admin/v0/interfaces"))] ->
               calls X = calls s ++
                 match http w (GET health_url) with
                 | Ok _ => [CRequest (GET health_url)]
                 | Raise _ => [CRequest (GET health_url); CRequest (GET (CONDUCTOR_URL cfg))]
                 end ++ cs ++
                 [CRequest (POST (CONDUCTOR_URL cfg +:+ "/api/admin/v0/interfaces"))]).
  { intros X ->. rewrite check_conductor_health_calls. by rewrite <- app_assoc. }
  destruct (truthy _); [destruct (py_get _ _ _)|]; apply Hc; simpl;
    by rewrite <- app_assoc.
Qed.

(** ** The assignments of one cycle, exactly *)

Lemma run_cycle_exact (cfg : config) (t0 : Q) (ws : list world) (w : world) :
  let s := update_stats cfg ws (initial_state t0) in
  exists (b : bool) (v : pyval) (d : gmap string pyval),
    stats_cache (fst (check_conductor_health cfg w s)) !! "online" = Some (PBool b) /\
    (forall s0, snd (get_conductor_stats cfg w s0) = Ok v) /\
    (forall s0, snd (get_container_status cfg w s0) = Ok d) /\
    let kvs :=
      [("online", PBool b);
       ("uptime", PFloat (time_time w - t0));
       ("storage_used_mb", PFloat (get_storage_used cfg (fs w)));
       ("containers", PDict d)] ++
      (if truthy v then
         match py_get v "peers" (PInt 0) with
         | Ok p => [("peers_connected", p);
                    ("last_update", PStr (datetime_now_isoformat w))]
         | Raise _ => []
         end
       else [("last_update", PStr (datetime_now_isoformat w))]) in
    kvs.*1 `sublist_of` cycle_keys /\
    seen (run_cycle cfg w s) = seen s ++ caches_after (stats_cache s) kvs /\
    stats_cache (run_cycle cfg w s) = assign_all (stats_cache s) kvs.
Proof.
  intros s.
  destruct (get_container_status_uniform cfg w) as (cs & d & Hcs).
  destruct (check_conductor_health_online cfg w s) as (s1 & E1 & Hc1 & Hs1).
  eexists _, _, d.
  split; [rewrite E1; simpl; rewrite Hc1; apply lookup_insert_eq|].
  split; [intros s0; by rewrite get_conductor_stats_run|].
  split; [intros s0; by rewrite Hcs|].
  pose proof (cycle_body_state cfg w s _ cs d (running_uptime cfg t0 ws (time_time w)) Hcs)
    as E. cbv zeta in E. fold s in E.
  rewrite E1 in E. simpl fst in E. rewrite Hc1 in Hs1.
  rewrite run_cycle_body, E. cbv zeta.
  destruct (truthy _); [destruct (py_get _ _ _)|];
    (split; [solve_sublist|]); simpl; rewrite Hc1, Hs1, <- ?app_assoc; by split.
Qed.

(** C1.  The cache is not replaced as a whole.  A cycle of the running
    poller assigns into the one shared dictionary, one key per
    assignment: online (the result of the health check), uptime (the
    clock minus the start of the process), storage_used_mb and containers
    (the results of the two probes), in this order and always; then, when
    the value handed back by the peer-count fetch is truthy,
    peers_connected and last_update if it is an object, and nothing more
    if it is not (line 139 raises and the cycle is left); and last_update
    alone when that value is falsy.  A reader running between two
    assignments finds a content that holds, under each key, either the
    value from before the cycle or the value the cycle ends with; the
    keys start_time and vouches_processed are never assigned. *)
Theorem cache_updated_key_by_key (cfg : config) (t0 : Q) (ws : list world) (w : world) :
  let s := update_stats cfg ws (initial_state t0) in
  exists (b : bool) (v : pyval) (d : gmap string pyval),
    stats_cache (fst (check_conductor_health cfg w s)) !! "online" = Some (PBool b) /\
    (forall s0, snd (get_conductor_stats cfg w s0) = Ok v) /\
    (forall s0, snd (get_container_status cfg w s0) = Ok d) /\
    let kvs :=
      [("online", PBool b);
       ("uptime", PFloat (time_time w - t0));
       ("storage_used_mb", PFloat (get_storage_used cfg (fs w)));
       ("containers", PDict d)] ++
      (if truthy v then
         match py_get v "peers" (PInt 0) with
         | Ok p => [("peers_connected", p);
                    ("last_update", PStr (datetime_now_isoformat w))]
         | Raise _ => []
         end
       else [("last_update", PStr (datetime_now_isoformat w))]) in
    seen (run_cycle cfg w s) = seen s ++ caches_after (stats_cache s) kvs /\
    stats_cache (run_cycle cfg w s) = assign_all (stats_cache s) kvs /\
    forall c, c ∈ caches_after (stats_cache s) kvs ->
      (forall k, c !! k = stats_cache s !! k \/
                 c !! k = stats_cache (run_cycle cfg w s) !! k) /\
      c !! "start_time" = stats_cache s !! "start_time" /\
      c !! "vouches_processed" = stats_cache s !! "vouches_processed".
Proof.
  intros s.
  destruct (run_cycle_exact cfg t0 ws w) as (b & v & d & Hb & Hv & Hd & H).
  fold s in Hb, H. cbv zeta in H. destruct H as (Hsub & Hseen & Hc).
  exists b, v, d. do 3 (split; [done|]). cbv zeta.
  split; [done|]. split; [done|].
  intros c Hin. split; [|split].
  - intros k. rewrite Hc. apply caches_after_mix; [|done].
    apply (sublist_NoDup _ _ NoDup_cycle_keys Hsub).
  - eapply caches_after_other; [|done].
    intros Hk. eapply elem_of_sublist in Hk; [|exact Hsub].
    revert Hk. apply (bool_decide_unpack _). by vm_compute.
  - eapply caches_after_other; [|done].
    intros Hk. eapply elem_of_sublist in Hk; [|exact Hsub].
    revert Hk. apply (bool_decide_unpack _). by vm_compute.
Qed.

(** ** Several cycles *)

(** X9.  peers_connected survives any number of cycles in which the admin
    endpoint never answers 200 with a non-empty object: failed fetches do
    not wear the last fetched value off. *)
Theorem peers_kept_over_failing_cycles (cfg : config) (ws : list world) (s : pstate)
    (p : pyval) :
  stats_cache s !! "peers_connected" = Some p ->
  Forall (fun w => forall r d,
            http w (POST (CONDUCTOR_URL cfg +:+ "/api/admin/v0/interfaces")) = Ok r ->
            status_code r = 200 -> json r = Some (PDict d) -> d = ∅) ws ->
  stats_cache (update_stats cfg ws s) !! "peers_connected" = Some p.
Proof.
  intros Hp Hws. revert s Hp.
  induction Hws as [|w ws Hw _ IH]; intros s Hp; [done|].
  simpl. apply IH. by apply peers_kept.
Qed.

(** ** The handlers *)

Lemma api_status_eval (cfg : config) (c : gmap string pyval)
    (v1 v2 v3 v4 v4' v5 v6 : pyval) (q : Q) :
  c !! "online" = Some v1 ->
  c !! "uptime" = Some v2 -> as_number v2 = Ok q ->
  c !! "vouches_processed" = Some v3 ->
  c !! "storage_used_mb" = Some v4 -> py_round2 v4 = Ok v4' ->
  c !! "peers_connected" = Some v5 ->
  c !! "last_update" = Some v6 ->
  api_status cfg c =
  Ok (Json
        (<["neighborhood_id" := PStr (NEIGHBORHOOD_ID cfg)]>
        (<["online" := v1]>
        (<["uptime_seconds" := v2]>
        (<["uptime_formatted" := PStr (format_uptime q)]>
        (<["vouches_processed" := v3]>
        (<["storage_used_mb" := v4']>
        (<["peers_connected" := v5]>
        (<["containers" := default (PDict ∅) (c !! "containers")]>
        (<["last_update" := v6]> ∅)))))))))).
Proof.
  intros E1 E2 F2 E3 E4 F4 E5 E6.
  unfold api_status, uptime_formatted, cache_get.
  rewrite E1, E2, E3, E4, E5, E6. cbn [mbind result_bind mret result_ret].
  rewrite F2, F4. done.
Qed.



(** X11.  [/api/status] reads containers with a default and every other
    field without one: a cache without the containers key is answered with
    an empty containers object, while a cache that lacks online, uptime,
    vouches_processed, storage_used_mb, peers_connected or last_update
    makes the handler raise. *)
Theorem api_status_missing_keys (cfg : config) (c : gmap string pyval) :
  (cache_ok c ->
   exists body,
     api_status cfg (delete "containers" c) = Ok (Json body) /\
     body !! "containers" = Some (PDict ∅)) /\
  (forall k,
     k ∈ ["online"; "uptime"; "vouches_processed"; "storage_used_mb";
          "peers_connected"; "last_update"] ->
     c !! k = None -> exists e, api_status cfg c = Raise e).
Proof.
  split.
  - intros Hc.
    destruct (cache_ok_field c "online" Hc) as (v1 & E1 & _); [done|].
    destruct (cache_ok_field c "uptime" Hc) as (v2 & E2 & [q F2]); [done|].
    destruct (cache_ok_field c "vouches_processed" Hc) as (v3 & E3 & _); [done|].
    destruct (cache_ok_field c "storage_used_mb" Hc) as (v4 & E4 & [v4' F4]); [done|].
    destruct (cache_ok_field c "peers_connected" Hc) as (v5 & E5 & _); [done|].
    destruct (cache_ok_field c "last_update" Hc) as (v6 & E6 & _); [done|].
    eexists. split.
    + eapply api_status_eval; try (rewrite lookup_delete_ne by done); eassumption.
    + rewrite lookup_delete_eq. by vm_compute.
  - intros k Hk Hnone. unfold api_status, uptime_formatted, cache_get.
    rewrite !elem_of_cons, elem_of_nil in Hk.
    destruct (c !! "online") as [v1|] eqn:E1; [|by eauto].
    destruct (c !! "uptime") as [v2|] eqn:E2; [|by eauto].
    cbn [mbind result_bind mret result_ret].
    destruct (as_number v2) as [q|e]; [|by eauto].
    cbn [mbind result_bind mret result_ret].
    destruct (c !! "vouches_processed") as [v3|] eqn:E3; [|by eauto].
    destruct (c !! "storage_used_mb") as [v4|] eqn:E4; [|by eauto].
    cbn [mbind result_bind mret result_ret].
    destruct (py_round2 v4) as [v4'|e]; [|by eauto].
    cbn [mbind result_bind mret result_ret].
    destruct (c !! "peers_connected") as [v5|] eqn:E5; [|by eauto].
    destruct (c !! "last_update") as [v6|] eqn:E6; [|by eauto].
    destruct Hk as [->|[->|[->|[->|[->|[->|[]]]]]]]; congruence.
Qed.



(** ** More on [format_uptime] *)





(** ** More on the storage scan *)

Lemma scan_paths_no_failure fs paths t :
  Forall (fun fp => stat fs fp <> StatFails) paths ->
  scan_paths fs paths t = (t + sum_sizes fs paths, None).
Proof.
  intros H. revert t. induction H as [|fp paths Hfp _ IH]; intros t; simpl.
  - f_equal. lia.
  - unfold os_path_exists, os_path_getsize.
    destruct (stat fs fp) as [n| |] eqn:E; [| |done]; rewrite IH; simpl;
      f_equal; lia.
Qed.

(** X15.  A file that is gone when the scan looks it up (or a broken
    link) is skipped and the scan goes on: as long as no size lookup
    raises, the result is the sum of the sizes of all the enumerated
    files that still exist, in megabytes, and no exception is swallowed. *)
Theorem vanished_files_are_skipped (cfg : config) (f : filesystem) :
  let paths := walk_paths (os_walk (DATA_DIR cfg) (tree_at f (DATA_DIR cfg))) in
  Forall (fun fp => stat f fp <> StatFails) paths ->
  scan_total cfg f = (sum_sizes f paths, None) /\
  (get_storage_used cfg f == sum_sizes f paths # 1048576)%Q.
Proof.
  intros paths H.
  assert (E : scan_total cfg f = (sum_sizes f paths, None)).
  { unfold scan_total. rewrite scan_walk_paths.
    by rewrite (scan_paths_no_failure _ _ _ H). }
  split; [done|]. unfold get_storage_used. rewrite E. apply py_truediv_mb.
Qed.

(** ** More on the peer-count fetch *)

(** X16.  [get_conductor_stats] raises nothing, leaves the cache alone and
    makes exactly one request, a POST to the admin endpoint.  It hands
    back the parsed body, whatever it is, when the answer has status 200
    and a JSON body, and [None] in every other case. *)
Theorem conductor_stats_one_post (cfg : config) (w : world) (s : pstate) :
  let admin := POST (CONDUCTOR_URL cfg +:+ "/api/admin/v0/interfaces") in
  exists v,
    get_conductor_stats cfg w s = (logged s [CRequest admin], Ok v) /\
    match http w admin with
    | Ok r =>
        if status_code r =? 200
        then match json r with Some body => v = body | None => v = PNone end
        else v = PNone
    | Raise _ => v = PNone
    end.
Proof.
  cbv zeta. eexists. split; [apply get_conductor_stats_run|].
  unfold stats_of_answer.
  destruct (http w _) as [r|e]; [|done].
  destruct (status_code r =? 200); [|done]. by destruct (json r).
Qed.

(** ** The poller against the mock conductor *)

Lemma strip_prefix_app (base p : string) : strip_prefix base (base +:+ p) = Some p.
Proof.
  induction base as [|a base IH]; simpl; [by destruct p|].
  by rewrite Ascii.eqb_refl.
Qed.

Lemma mock_answers_health (base : string) :
  MockConductor.answer_at base (GET (base +:+ "/health")) =
  Ok {| status_code := 200; json := None |}.
Proof. unfold MockConductor.answer_at. by rewrite strip_prefix_app. Qed.

Lemma mock_answers_interfaces (base : string) :
  MockConductor.answer_at base (POST (base +:+ "/api/admin/v0/interfaces")) =
  Ok {| status_code := 200; json := Some (PDict (<["peers" := PInt 3]> ∅)) |}.
Proof. unfold MockConductor.answer_at. by rewrite strip_prefix_app. Qed.

(** X17.  With the mock conductor of the repository behind the configured
    address, every cycle of the running poller publishes online = true
    from the first request alone (the fallback is not used), a peer count
    of 3, and stamps last_update. *)
Theorem poller_against_mock_conductor (cfg : config) (t0 : Q) (ws : list world)
    (w : world) :
  (forall r, http w r = MockConductor.answer_at (CONDUCTOR_URL cfg) r) ->
  let s := update_stats cfg ws (initial_state t0) in
  let s' := run_cycle cfg w s in
  stats_cache s' !! "online" = Some (PBool true) /\
  calls (fst (check_conductor_health cfg w s)) =
    calls s ++ [CRequest (GET (CONDUCTOR_URL cfg +:+ "/health"))] /\
  stats_cache s' !! "peers_connected" = Some (PInt 3) /\
  stats_cache s' !! "last_update" = Some (PStr (datetime_now_isoformat w)).
Proof.
  intros Hw s s'.
  pose proof (Hw (GET (CONDUCTOR_URL cfg +:+ "/health"))) as Hh.
  rewrite mock_answers_health in Hh.
  pose proof (Hw (POST (CONDUCTOR_URL cfg +:+ "/api/admin/v0/interfaces"))) as Hp.
  rewrite mock_answers_interfaces in Hp.
  split; [|split; [|split]].
  - unfold s'. rewrite run_cycle_online, Hh. done.
  - rewrite check_conductor_health_calls, Hh. done.
  - unfold s'.
    rewrite (peers_from_nonempty_object cfg w s _ _ (update_stats_cache_ok cfg t0 ws)
               Hp eq_refl eq_refl); [by vm_compute|].
    intros E. apply (f_equal (fun m => m !! "peers")) in E. vm_compute in E. discriminate E.
  - apply last_update_stamped. intros r v Hr Hcode Hj Ht.
    rewrite Hp in Hr. injection Hr as <-. simpl in Hj. injection Hj as <-. eauto.
Qed.

(** * Concrete runs of the further properties *)

(** X1, instance: the conductor container runs, the lair container does
    not exist and asking for the ui container fails. *)
Lemma container_status_per_name_witness :
  let client := fun name : string =>
    if String.eqb name "ourblock-lair" then Raise NotFound
    else if String.eqb name "ourblock-ui" then Raise DockerException
    else Ok "running" in
  DOCKER_AVAILABLE cfg0 = true /\
  docker_client world_mock_conductor = Ok client /\
  exists d : gmap string pyval,
    get_container_status cfg0 world_mock_conductor (initial_state 90) =
      (logged (initial_state 90)
         [CFromEnv; CContainersGet "ourblock-conductor";
          CContainersGet "ourblock-lair"; CContainersGet "ourblock-ui"], Ok d) /\
    d !! "conductor" = Some (PStr "running") /\
    d !! "lair" = Some (PStr "not found") /\
    d !! "ui" = Some (PStr "unknown").
Proof.
  cbv zeta. split; [reflexivity|]. split; [reflexivity|].
  apply (container_status_per_name cfg0 world_mock_conductor (initial_state 90)
           (fun name : string =>
              if String.eqb name "ourblock-lair" then Raise NotFound
              else if String.eqb name "ourblock-ui" then Raise DockerException
              else Ok "running")); reflexivity.
Defined.

(** X2, instance: the docker library is there but no client can be made. *)
Lemma container_status_without_client_witness :
  DOCKER_AVAILABLE cfg0 = true /\
  docker_client world_down = Raise DockerException /\
  exists d : gmap string pyval,
    get_container_status cfg0 world_down (initial_state 90) =
      (logged (initial_state 90) [CFromEnv], Ok d) /\
    d !! "conductor" = Some (PStr "unknown") /\
    d !! "lair" = Some (PStr "unknown") /\
    d !! "ui" = Some (PStr "unknown").
Proof.
  split; [reflexivity|]. split; [reflexivity|].
  apply (container_status_without_client cfg0 world_down (initial_state 90)
           DockerException); reflexivity.
Defined.

(** X4, instance: vouches_processed in the content found after the first
    assignment of the first cycle. *)
Lemma unassigned_keys_keep_initial_value_witness :
  let c := <["online" := PBool true]> (initial_stats_cache 90) in
  c ∈ observable cfg0 90 [mock_world (peers_body 3)] /\
  ("vouches_processed" ∉ cycle_keys) /\
  c !! "vouches_processed" = initial_stats_cache 90 !! "vouches_processed" /\
  c !! "start_time" = Some (PFloat 90).
Proof.
  cbv zeta.
  assert (H : <["online" := PBool true]> (initial_stats_cache 90)
                ∈ observable cfg0 90 [mock_world (peers_body 3)]).
  { apply (list_elem_of_lookup_2 _ 1%nat). vm_compute. reflexivity. }
  assert (Hk : "vouches_processed" ∉ cycle_keys).
  { apply (bool_decide_unpack _). vm_compute. exact I. }
  split; [exact H|]. split; [exact Hk|].
  apply (unassigned_keys_keep_initial_value cfg0 90 [mock_world (peers_body 3)] _
           "vouches_processed" H Hk).
Defined.

(** X6, instance: the admin endpoint answers 200 with the list [[1]]. *)
Lemma non_object_body_skips_timestamp_witness :
  let s := update_stats cfg0 [] (initial_state 90) in
  let w := mock_world list_body in
  snd (cycle_body cfg0 w s) = Raise AttributeError /\
  snd (update_stats_iteration cfg0 w s) = Ok tt /\
  stats_cache (run_cycle cfg0 w s) !! "last_update" = stats_cache s !! "last_update" /\
  stats_cache (run_cycle cfg0 w s) !! "peers_connected" =
    stats_cache s !! "peers_connected" /\
  stats_cache (run_cycle cfg0 w s) !! "uptime" = Some (PFloat (time_time w - 90)).
Proof.
  cbv zeta.
  apply (non_object_body_skips_timestamp cfg0 90 [] (mock_world list_body)
           {| status_code := 200; json := Some list_body |} list_body).
  - reflexivity.
  - reflexivity.
  - reflexivity.
  - reflexivity.
  - intros d E. discriminate E.
Defined.

(** X7, instance: nothing answers, the cycle still stamps last_update. *)
Lemma cycle_stamps_last_update_witness :
  let s := update_stats cfg0 [] (initial_state 90) in
  snd (cycle_body cfg0 world_down s) = Ok tt /\
  stats_cache (run_cycle cfg0 world_down s) !! "last_update" =
    Some (PStr "2025-01-01T00:00:10").
Proof.
  cbv zeta. apply (cycle_stamps_last_update cfg0 90 [] world_down).
  intros r v H. vm_compute in H. discriminate H.
Defined.

(** X9, instance: 5 peers, then two cycles in which nothing answers. *)
Lemma peers_kept_over_failing_cycles_witness :
  let s := update_stats cfg0 [mock_world (peers_body 5)] (initial_state 90) in
  stats_cache s !! "peers_connected" = Some (PInt 5) /\
  stats_cache (update_stats cfg0 [world_down; world_down] s) !! "peers_connected" =
    Some (PInt 5).
Proof.
  cbv zeta. split; [vm_compute; reflexivity|].
  apply (peers_kept_over_failing_cycles cfg0 [world_down; world_down]
           (update_stats cfg0 [mock_world (peers_body 5)] (initial_state 90)) (PInt 5)).
  - vm_compute. reflexivity.
  - repeat constructor; intros r d H; vm_compute in H; discriminate H.
Defined.


(** X11, instance: the initial cache without its containers key, and the
    empty cache. *)
Lemma api_status_missing_keys_witness :
  (exists body,
     api_status cfg0 (delete "containers" (initial_stats_cache 90)) = Ok (Json body) /\
     body !! "containers" = Some (PDict ∅)) /\
  (exists e, api_status cfg0 ∅ = Raise e).
Proof.
  split.
  - apply (api_status_missing_keys cfg0 (initial_stats_cache 90)).
    apply cache_ok_initial.
  - apply (api_status_missing_keys cfg0 ∅) with (k := "online").
    + apply (bool_decide_unpack _). vm_compute. exact I.
    + reflexivity.
Defined.




(** X15, instance: the file between two files of 1 and 3 bytes is gone. *)
Lemma vanished_files_are_skipped_witness :
  Forall (fun fp => stat fs_vanished fp <> StatFails)
    (walk_paths (os_walk (DATA_DIR cfg0) (tree_at fs_vanished (DATA_DIR cfg0)))) /\
  scan_total cfg0 fs_vanished = (4, None) /\
  (get_storage_used cfg0 fs_vanished == 4 # 1048576)%Q.
Proof.
  assert (H : Forall (fun fp => stat fs_vanished fp <> StatFails)
                (walk_paths (os_walk (DATA_DIR cfg0) (tree_at fs_vanished (DATA_DIR cfg0))))).
  { simpl. repeat constructor; intros E; vm_compute in E; discriminate E. }
  split; [exact H|].
  apply (vanished_files_are_skipped cfg0 fs_vanished H).
Defined.

(** X17, instance: the first cycle against the mock conductor at the
    default address. *)
Lemma poller_against_mock_conductor_witness :
  let s := update_stats cfg0 [] (initial_state 90) in
  let s' := run_cycle cfg0 world_mock_conductor s in
  stats_cache s' !! "online" = Some (PBool true) /\
  calls (fst (check_conductor_health cfg0 world_mock_conductor s)) =
    calls s ++ [CRequest (GET (CONDUCTOR_URL cfg0 +:+ "/health"))] /\
  stats_cache s' !! "peers_connected" = Some (PInt 3) /\
  stats_cache s' !! "last_update" =
    Some (PStr (datetime_now_isoformat world_mock_conductor)).
Proof.
  cbv zeta.
  apply (poller_against_mock_conductor cfg0 90 [] world_mock_conductor).
  intros r. reflexivity.
Defined.

(** C1, instance: the content found after the first assignment of the
    first cycle against the mock conductor. *)
Lemma cache_updated_key_by_key_witness :
  let s0 := update_stats cfg0 [] (initial_state 90) in
  let s1 := run_cycle cfg0 (mock_world (peers_body 3)) s0 in
  let c := <["online" := PBool true]> (initial_stats_cache 90) in
  c ∈ seen s1 /\
  (forall k, c !! k = stats_cache s0 !! k \/ c !! k = stats_cache s1 !! k) /\
  c !! "start_time" = stats_cache s0 !! "start_time" /\
  c !! "vouches_processed" = stats_cache s0 !! "vouches_processed".
Proof.
  cbv zeta.
  assert (H : <["online" := PBool true]> (initial_stats_cache 90)
                ∈ seen (run_cycle cfg0 (mock_world (peers_body 3))
                          (update_stats cfg0 [] (initial_state 90)))).
  { apply (list_elem_of_lookup_2 _ 0%nat). vm_compute. reflexivity. }
  split; [exact H|].
  destruct (cache_updated_key_by_key cfg0 90 [] (mock_world (peers_body 3)))
    as (b & v & d & _ & _ & _ & Hseen & _ & Hall).
  apply Hall. rewrite Hseen in H. exact H.
Defined.

(** C4, counterexample.  The docker library is there but no client can be
    made (no socket, no daemon): this is not detected at process start.
    Every inspection calls [docker.from_env()], and the three names get
    "unknown", not the fixed string of the degraded mode. *)
Lemma library_present_without_client_reports_unknown :
  let r := get_container_status cfg0 world_down (initial_state 90) in
  DOCKER_AVAILABLE cfg0 = true /\
  docker_client world_down = Raise DockerException /\
  calls (fst r) = [CFromEnv] /\
  exists d : gmap string pyval,
    snd r = Ok d /\
    d !! "conductor" = Some (PStr "unknown") /\
    d !! "lair" = Some (PStr "unknown") /\
    d !! "ui" = Some (PStr "unknown") /\
    d <> docker_unavailable.
Proof.
  cbv zeta. do 3 (split; [by vm_compute|]).
  exists all_unknown. do 4 (split; [by vm_compute|]).
  intros E. apply (f_equal (fun m => m !! "ui")) in E. vm_compute in E. discriminate E.
Qed.
